(** * cashflow-ai bot-service: message-to-expense extraction pipeline

    A shallow embedding of the Python sources
      - [src/schemas/schemas.py]        (ExpenseCategory, ExpenseExtraction,
                                         ExpenseResponse, ExpenseCreate),
      - [src/utils/config.py]           (Settings.get_llm_provider),
      - [src/services/llm_service.py]   (LLMService),
      - [src/services/expense_service.py] (ExpenseService),
      - [src/models/models.py]          (User, Expense),
      - [src/api/routes.py]             (the three routes),
    together with the small part of the Python runtime those files lean on
    (exceptions, [str.find] / [str.rfind] / slicing / [str.lower], the
    builtin [round] on binary64 floats, [Decimal(str(x))], tenacity's retry
    loop, the reader of LangChain's output parser).

    Conventions.
    - A Python [str] is a [string]: the UTF-8 bytes of the text.  [find] and
      [rfind] therefore return byte offsets; they are only ever fed back to
      a slice of the same text, which selects the same characters.
      [py_len] counts code points.
    - A Python [float] is a primitive binary64 [float].
    - A call that may raise returns a [res]: [Ok v] or [Err e] with [e] an
      instance of (a subclass of) Python's [Exception]. *)

From Stdlib Require Import ZArith NArith List String Ascii Bool Lia.
From Stdlib Require Import Floats.
From Stdlib Require Import Permutation Sorted.
From Stdlib Require DecimalString DecimalZ.
Import ListNotations.

Set Warnings "-register-all,-inexact-float".

Local Open Scope string_scope.
Local Open Scope Z_scope.

(* ===================================================================== *)
(** ** Python runtime *)
(* ===================================================================== *)

Module Py.

(** Exceptions raised by the code under study and by the libraries it
    calls.  All of them derive from [Exception], so [except Exception]
    catches every one of them.  Signals that derive from [BaseException]
    only (the cancellation of the task, the exit of the interpreter) are
    not behaviours of a collaborator and are left out. *)
Inductive exn : Type :=
| ValueError (msg : string)
| TypeError (msg : string)
| ValidationError (model : string) (fields : list string)
| JSONDecodeError (msg : string)
| OutputParserException (msg : string)
| ProviderError (msg : string)
| SQLAlchemyError (msg : string).

Inductive res (A : Type) : Type :=
| Ok (v : A)
| Err (e : exn).
Arguments Ok {A} v.
Arguments Err {A} e.

Definition res_bind {A B} (r : res A) (k : A -> res B) : res B :=
  match r with
  | Ok v => k v
  | Err e => Err e
  end.

Definition is_ok {A} (r : res A) : bool :=
  match r with Ok _ => true | Err _ => false end.

(** *** Strings *)

(** [s.find(sub)]: the lowest index where [sub] occurs, or [-1]. *)
Fixpoint find_from (sub s : string) (i : Z) : Z :=
  if prefix sub s then i
  else match s with
       | EmptyString => -1
       | String _ s' => find_from sub s' (i + 1)
       end.

Definition find (s sub : string) : Z := find_from sub s 0.

(** [s.rfind(sub)]: the highest index where [sub] occurs, or [-1]. *)
Fixpoint rfind_from (sub s : string) (i : Z) : Z :=
  match s with
  | EmptyString => if prefix sub s then i else -1
  | String _ s' =>
      let later := rfind_from sub s' (i + 1) in
      if later =? -1 then (if prefix sub s then i else -1) else later
  end.

Definition rfind (s sub : string) : Z := rfind_from sub s 0.

(** [sub in s]. *)
Definition contains (sub s : string) : bool := negb (find s sub =? -1).

(** [s[start:stop]] for indices that are not negative (the only ones the
    sources produce); an empty range gives the empty string. *)
Definition slice (s : string) (start stop : Z) : string :=
  substring (Z.to_nat start) (Z.to_nat (stop - start)) s.

Definition lower_ascii (c : ascii) : ascii :=
  let n := nat_of_ascii c in
  if ((65 <=? n) && (n <=? 90))%nat then ascii_of_nat (n + 32) else c.

(** [s.lower()].  Only ASCII capitals are mapped; no other character
    lowercases to one of the ASCII letters this development searches for. *)
Fixpoint lower (s : string) : string :=
  match s with
  | EmptyString => EmptyString
  | String c s' => String (lower_ascii c) (lower s')
  end.

(** [len(s)]: the number of code points, that is of bytes which are not
    UTF-8 continuation bytes (10xxxxxx). *)
Fixpoint py_len (s : string) : Z :=
  match s with
  | EmptyString => 0
  | String c s' =>
      let n := nat_of_ascii c in
      (if ((128 <=? n) && (n <? 192))%nat then 0 else 1) + py_len s'
  end.

(** Truth value of a [str]: non-empty. *)
Definition str_truthy (s : string) : bool :=
  match s with EmptyString => false | String _ _ => true end.

(** *** Floats *)

(** Nearest binary64 to the rational [n / d] (ties to even), with sign. *)
Definition nearest_float (sign : bool) (n d : positive) : float :=
  SF2Prim (SFdiv prec emax (S754_finite sign n 0) (S754_finite false d 0)).

(** [float(z)] for an [int]; [None] stands for [OverflowError]. *)
Definition float_of_int (z : Z) : option float :=
  match binary_normalize prec emax z 0 false with
  | S754_infinity _ => None
  | sf => Some (SF2Prim sf)
  end.

(** Quotient of [a / b] rounded to the nearest integer, ties to even
    ([0 <= a], [0 < b]). *)
Definition div_half_even (a b : Z) : Z :=
  let q := a / b in
  let r := a mod b in
  match 2 * r ?= b with
  | Lt => q
  | Gt => q + 1
  | Eq => if Z.even q then q else q + 1
  end.

(** The builtin [round(x, ndigits)] on a float, for [0 <= ndigits]: the
    exact binary value of [x] is rounded to [ndigits] decimals, ties to
    even, and the decimal read back as the nearest float.  Zeros,
    infinities and NaN round to themselves. *)
Definition round (x : float) (ndigits : N) : float :=
  match Prim2SF x with
  | S754_finite s m e =>
      let scale := 10 ^ Z.of_N ndigits in
      let n :=
        if 0 <=? e then Zpos m * 2 ^ e * scale
        else div_half_even (Zpos m * scale) (2 ^ (- e)) in
      match n with
      | Zpos p => nearest_float s p (Z.to_pos scale)
      | _ => SF2Prim (S754_zero s)
      end
  | _ => x
  end.

(** Truth value of a float: anything but a zero. *)
Definition float_truthy (x : float) : bool := negb (x =? 0)%float.

(** *** Decimal *)

(** A [decimal.Decimal]: sign, coefficient and exponent, or a special
    value. *)
Inductive Decimal : Type :=
| DecFinite (sign : bool) (coefficient : N) (exponent : Z)
| DecInfinity (sign : bool)
| DecNaN.

(** Is [num / den >= 10 ^ k]? *)
Definition ge_pow10 (num den k : Z) : bool :=
  if 0 <=? k then 10 ^ k * den <=? num else den <=? num * 10 ^ (- k).

(** The least [d] from [d0] on with [num / den < 10 ^ d]. *)
Fixpoint decpt_from (fuel : nat) (num den d0 : Z) : Z :=
  match fuel with
  | O => d0
  | S fuel' => if ge_pow10 num den d0 then decpt_from fuel' num den (d0 + 1) else d0
  end.

(** Position of the decimal point of [num / den > 0]: the [d] with
    [10 ^ (d - 1) <= num / den < 10 ^ d]. *)
Definition decpt_of (num den : Z) : Z :=
  let est := (Z.log2 num - Z.log2 den) * 30103 / 100000 in
  decpt_from 8 num den (est - 2).

(** Does the decimal [c * 10 ^ q] read back as the float [x]? *)
Definition reads_back (x : float) (sign : bool) (c q : Z) : bool :=
  match c with
  | Zpos p =>
      let y := if 0 <=? q then nearest_float sign (p * Z.to_pos (10 ^ q)) 1
               else nearest_float sign p (Z.to_pos (10 ^ (- q))) in
      (y =? x)%float
  | _ => false
  end.

(** The shortest decimal with [nd], [nd + 1], ... significant digits that
    reads back as [x = num / den]; among the two neighbours of a given
    length, the one nearer to [x]. *)
Fixpoint shortest_from (fuel : nat) (x : float) (sign : bool)
    (num den decpt nd : Z) : Z * Z :=
  let q := decpt - nd in
  let a := if 0 <=? q then num else num * 10 ^ (- q) in
  let b := if 0 <=? q then den * 10 ^ q else den in
  let lo := a / b in
  let r := a mod b in
  let hi := lo + 1 in
  let lo_first := (r =? 0) || (2 * r <? b) || ((2 * r =? b) && Z.even lo) in
  let c1 := if lo_first then lo else hi in
  let c2 := if lo_first then hi else lo in
  if reads_back x sign c1 q then (c1, q)
  else if negb (r =? 0) && reads_back x sign c2 q then (c2, q)
  else match fuel with
       | O => (c1, q)
       | S fuel' => shortest_from fuel' x sign num den decpt (nd + 1)
       end.

Fixpoint strip_zeros (fuel : nat) (c q : Z) : Z * Z :=
  match fuel with
  | O => (c, q)
  | S fuel' =>
      if (0 <? c) && (c mod 10 =? 0) then strip_zeros fuel' (c / 10) (q + 1)
      else (c, q)
  end.

(** Number of decimal digits of [c > 0]. *)
Fixpoint ndigits_from (fuel : nat) (c : Z) : Z :=
  match fuel with
  | O => 0
  | S fuel' => if c <? 10 then 1 else 1 + ndigits_from fuel' (c / 10)
  end.

(** [Decimal(str(x))].  [str] of a float is its shortest repr: fixed
    notation (with a trailing [.0] on integers) when the decimal point
    falls in [-4 < decpt <= 16], exponent notation otherwise; [Decimal]
    keeps the digits and the exponent the text shows. *)
Definition Decimal_of_str_float (x : float) : Decimal :=
  match Prim2SF x with
  | S754_nan => DecNaN
  | S754_infinity s => DecInfinity s
  | S754_zero s => DecFinite s 0 (-1)
  | S754_finite s m e =>
      let num := if 0 <=? e then Zpos m * 2 ^ e else Zpos m in
      let den := if 0 <=? e then 1 else 2 ^ (- e) in
      let decpt := decpt_of num den in
      let '(c0, q0) := shortest_from 17 x s num den decpt 1 in
      let '(c, q) := strip_zeros 20 c0 q0 in
      let decpt' := q + ndigits_from 20 c in
      if (0 <=? q) && (decpt' <=? 16)
      then DecFinite s (Z.to_N (c * 10 ^ (q + 1))) (-1)
      else DecFinite s (Z.to_N c) q
  end.

(** [d > 0] as pydantic's [gt=0] reads it on a Decimal. *)
Definition Decimal_gt0 (d : Decimal) : bool :=
  match d with
  | DecFinite false c _ => (0 <? c)%N
  | DecInfinity false => true
  | _ => false
  end.

(** Number of decimal places of a finite Decimal once trailing zeros are
    dropped ([Decimal.normalize]); [None] for infinities and NaN. *)
Definition Decimal_places (d : Decimal) : option Z :=
  match d with
  | DecFinite _ c e =>
      let '(_, e') := strip_zeros (S (N.to_nat (N.log2 c))) (Z.of_N c) e in
      Some (if (c =? 0)%N then 0 else if 0 <=? e' then 0 else - e')
  | _ => None
  end.

(** *** Values handed to a pydantic model *)

(** What [json.loads] returns, and what a caller may pass as a keyword
    argument: [None], [bool], [int], [float], [str], [list], [dict]. *)
Inductive pyval : Type :=
| PNone
| PBool (b : bool)
| PInt (z : Z)
| PFloat (x : float)
| PStr (s : string)
| PList (items : list pyval)
| PDict (items : list (string * pyval)).

(** [d.get(key)] on the items of a [dict]. *)
Fixpoint dict_get (items : list (string * pyval)) (key : string) : option pyval :=
  match items with
  | [] => None
  | (k, v) :: rest => if String.eqb k key then Some v else dict_get rest key
  end.

(** The library calls the sources make whose result this development does
    not compute: [json.loads] on a text; what LangChain's JSON reader makes
    of a text that [json.loads] rejects (see [parse_json_markdown]); and
    the reading of a numeral in a [str] as a [float] that pydantic's lax
    mode performs. *)
Class Runtime : Type := {
  json_loads : string -> res pyval;
  json_repair : string -> res pyval;
  float_of_str : string -> option float
}.

(** *** Stateful computations that may raise *)

(** A computation over a state [S]: the state survives an exception, as a
    mutated object survives a [raise]. *)
Definition M (S A : Type) : Type := S -> res A * S.

Definition ret {S A} (v : A) : M S A := fun s => (Ok v, s).

Definition raise {S A} (e : exn) : M S A := fun s => (Err e, s).

Definition bind {S A B} (m : M S A) (k : A -> M S B) : M S B :=
  fun s =>
    match m s with
    | (Ok v, s') => k v s'
    | (Err e, s') => (Err e, s')
    end.

(** A pure call that may raise, inside a stateful computation. *)
Definition lift {S A} (r : res A) : M S A := fun s => (r, s).

(** [try: body  except Exception as e: handler(e)]. *)
Definition try_except {S A} (body : M S A) (handler : exn -> M S A) : M S A :=
  fun s =>
    match body s with
    | (Ok v, s') => (Ok v, s')
    | (Err e, s') => handler e s'
    end.

End Py.

Declare Scope py_scope.
Delimit Scope py_scope with py.
Notation "x <- m ;; k" := (Py.bind m (fun x => k))
  (at level 61, m at next level, right associativity) : py_scope.
Notation "m ;;; k" := (Py.bind m (fun _ => k))
  (at level 61, right associativity) : py_scope.

(* ===================================================================== *)
(** ** [src/schemas/schemas.py] *)
(* ===================================================================== *)

Module Schemas.
Import Py.

(** [class ExpenseCategory(str, Enum)], members in declaration order. *)
Inductive ExpenseCategory : Type :=
| HOUSING
| TRANSPORTATION
| FOOD
| UTILITIES
| INSURANCE
| MEDICAL_HEALTHCARE
| SAVINGS
| DEBT
| EDUCATION
| ENTERTAINMENT
| OTHER.

(** [cat.value]. *)
Definition value (cat : ExpenseCategory) : string :=
  match cat with
  | HOUSING => "Housing"
  | TRANSPORTATION => "Transportation"
  | FOOD => "Food"
  | UTILITIES => "Utilities"
  | INSURANCE => "Insurance"
  | MEDICAL_HEALTHCARE => "Medical/Healthcare"
  | SAVINGS => "Savings"
  | DEBT => "Debt"
  | EDUCATION => "Education"
  | ENTERTAINMENT => "Entertainment"
  | OTHER => "Other"
  end.

(** [list(ExpenseCategory)]. *)
Definition ExpenseCategory_members : list ExpenseCategory :=
  [HOUSING; TRANSPORTATION; FOOD; UTILITIES; INSURANCE; MEDICAL_HEALTHCARE;
   SAVINGS; DEBT; EDUCATION; ENTERTAINMENT; OTHER].

(** [ExpenseCategory(s)]: the member whose value is [s], if any. *)
Definition ExpenseCategory_of_value (s : string) : option ExpenseCategory :=
  List.find (fun cat => String.eqb (value cat) s) ExpenseCategory_members.

(** [class ExpenseExtraction(BaseModel)]. *)
Record ExpenseExtraction : Type := {
  is_expense : bool;
  description : option string;
  amount : option float;
  category : option ExpenseCategory
}.

(** The field validator of [amount]:
    [if v is not None: return round(v, 2)] / [return v]. *)
Definition validate_amount (v : option float) : option float :=
  match v with
  | Some x => Some (round x 2)
  | None => v
  end.

(** pydantic reading an input as [bool] (lax mode): a [bool], the
    integers and floats 0 and 1, and the usual spellings in a [str]. *)
Definition coerce_bool (v : pyval) : option bool :=
  match v with
  | PBool b => Some b
  | PInt 0 => Some false
  | PInt 1 => Some true
  | PFloat x =>
      if (x =? 0)%float then Some false
      else if (x =? 1)%float then Some true else None
  | PStr s =>
      let l := lower s in
      if existsb (String.eqb l) ["0"; "off"; "f"; "false"; "n"; "no"] then Some false
      else if existsb (String.eqb l) ["1"; "on"; "t"; "true"; "y"; "yes"] then Some true
      else None
  | _ => None
  end.

(** pydantic reading an input as [float] (lax mode): a [float], an [int],
    a [bool], or a numeral in a [str]. *)
Definition coerce_float `{Runtime} (v : pyval) : option float :=
  match v with
  | PFloat x => Some x
  | PInt z => float_of_int z
  | PBool b => Some (if b then 1 else 0)%float
  | PStr s => float_of_str s
  | _ => None
  end.

(** [is_expense: bool = Field(...)]: required. *)
Definition field_is_expense (raw : option pyval) : option bool :=
  match raw with
  | Some v => coerce_bool v
  | None => None
  end.

(** [description: str | None = Field(None)]; the outer [None] is a
    validation error, [Some None] the value [None]. *)
Definition field_description (raw : option pyval) : option (option string) :=
  match raw with
  | None => Some None
  | Some PNone => Some None
  | Some (PStr s) => Some (Some s)
  | Some _ => None
  end.

(** [amount: float | None = Field(None, gt=0)] followed by the field
    validator.  The constraint [gt=0] is checked on the float that was
    read, and [validate_amount] runs on what passed it; a field left out
    keeps its default and is not validated. *)
Definition field_amount `{Runtime} (raw : option pyval) : option (option float) :=
  match raw with
  | None => Some None
  | Some PNone => Some (validate_amount None)
  | Some v =>
      match coerce_float v with
      | Some x => if (0 <? x)%float then Some (validate_amount (Some x)) else None
      | None => None
      end
  end.

(** [category: ExpenseCategory | None = Field(None)]. *)
Definition field_category (raw : option pyval) : option (option ExpenseCategory) :=
  match raw with
  | None => Some None
  | Some PNone => Some None
  | Some (PStr s) =>
      match ExpenseCategory_of_value s with
      | Some cat => Some (Some cat)
      | None => None
      end
  | Some _ => None
  end.

(** Names of the fields a validation rejected. *)
Definition failed {A} (name : string) (r : option A) : list string :=
  match r with Some _ => [] | None => [name] end.

(** [ExpenseExtraction] called on keyword arguments: every field is
    validated; the model is built when all pass, [ValidationError] lists
    the others. *)
Definition ExpenseExtraction_new `{Runtime} (kwargs : list (string * pyval))
  : res ExpenseExtraction :=
  let f1 := field_is_expense (dict_get kwargs "is_expense") in
  let f2 := field_description (dict_get kwargs "description") in
  let f3 := field_amount (dict_get kwargs "amount") in
  let f4 := field_category (dict_get kwargs "category") in
  match f1, f2, f3, f4 with
  | Some b, Some d, Some a, Some c =>
      Ok {| is_expense := b; description := d; amount := a; category := c |}
  | _, _, _, _ =>
      Err (ValidationError "ExpenseExtraction"
             (failed "is_expense" f1 ++ failed "description" f2 ++
              failed "amount" f3 ++ failed "category" f4))
  end.

(** [ExpenseExtraction] called on a value spread into keyword arguments
    (the double-star call of the source): only a [dict] can be spread. *)
Definition ExpenseExtraction_of (obj : pyval) `{Runtime} : res ExpenseExtraction :=
  match obj with
  | PDict items => ExpenseExtraction_new items
  | _ => Err (TypeError "argument after ** must be a mapping")
  end.

(** [class ExpenseResponse(BaseModel)]. *)
Record ExpenseResponse : Type := {
  success : bool;
  message : string;
  expense_id : option Z
}.

(** [class ExpenseCreate(BaseModel)]. *)
Record ExpenseCreate : Type := {
  ec_user_id : Z;
  ec_description : string;
  ec_amount : Decimal;
  ec_category : ExpenseCategory
}.

(** [amount: Decimal = Field(..., gt=0, decimal_places=2)]: a finite
    Decimal above zero with at most two decimal places. *)
Definition amount_ok (d : Decimal) : bool :=
  Decimal_gt0 d &&
  match Decimal_places d with
  | Some places => places <=? 2
  | None => false
  end.

(** [ExpenseCreate(user_id=..., description=..., amount=..., category=...)]
    with [user_id: gt=0] and [description: min_length=1, max_length=500]. *)
Definition ExpenseCreate_new (user_id : Z) (description : string)
    (amount : Decimal) (category : ExpenseCategory) : res ExpenseCreate :=
  let e1 := if 0 <? user_id then [] else ["user_id"] in
  let e2 := if (1 <=? py_len description) && (py_len description <=? 500)
            then [] else ["description"] in
  let e3 := if amount_ok amount then [] else ["amount"] in
  match (e1 ++ e2 ++ e3)%list with
  | [] => Ok {| ec_user_id := user_id; ec_description := description;
                ec_amount := amount; ec_category := category |}
  | errors => Err (ValidationError "ExpenseCreate" errors)
  end.

End Schemas.

(* ===================================================================== *)
(** ** [src/utils/config.py] *)
(* ===================================================================== *)

Module Config.
Import Py.

(** [class Settings(BaseSettings)], the fields the LLM service reads. *)
Record Settings : Type := {
  openai_api_key : option string;
  anthropic_api_key : option string;
  llm_model : string
}.

Definition get_llm_provider (self : Settings) : string :=
  if contains "gpt" (lower (llm_model self)) then "openai"
  else if contains "claude" (lower (llm_model self)) then "anthropic"
  else "openai".

End Config.

(* ===================================================================== *)
(** ** tenacity: the [@retry] decorator *)
(* ===================================================================== *)

Module Tenacity.
Import Py.

(** What an observer of the decorated call sees: each attempt with its
    number, and each pause with its length. *)
Inductive event : Type :=
| Attempt (attempt_number : nat)
| Sleep (seconds : Z).

(** [stop_after_attempt(max_attempt_number)]. *)
Definition stop_after_attempt (max_attempt_number attempt_number : nat) : bool :=
  (max_attempt_number <=? attempt_number)%nat.

(** [wait_exponential(multiplier, min, max)] with [exp_base = 2]:
    [max(max(0, min), min(multiplier * 2 ** (attempt_number - 1), max))],
    attempts being numbered from 1. *)
Definition wait_exponential (multiplier min max : Z) (attempt_number : nat) : Z :=
  let exp := 2 ^ (Z.of_nat attempt_number - 1) in
  let result := multiplier * exp in
  Z.max (Z.max 0 min) (Z.min result max).

(** The loop of [Retrying] with [reraise=True]: call [fn]; on an
    exception either stop and re-raise it, or sleep and try again.
    [fuel] bounds the iterations of the loop; [None] when it runs out. *)
Fixpoint retrying {A} (fuel : nat) (stop : nat -> bool) (wait : nat -> Z)
    (fn : nat -> res A) (attempt_number : nat) : option (res A * list event) :=
  match fuel with
  | O => None
  | S fuel' =>
      match fn attempt_number with
      | Ok v => Some (Ok v, [Attempt attempt_number])
      | Err e =>
          if stop attempt_number then Some (Err e, [Attempt attempt_number])
          else
            match retrying fuel' stop wait fn (S attempt_number) with
            | Some (r, trace) =>
                Some (r, Attempt attempt_number :: Sleep (wait attempt_number) :: trace)
            | None => None
            end
      end
  end.

(** Number of attempts a trace shows. *)
Definition attempts (trace : list event) : nat :=
  List.length (filter (fun ev => match ev with Attempt _ => true | Sleep _ => false end) trace).

(** The pauses a trace shows, in order. *)
Definition sleeps (trace : list event) : list Z :=
  flat_map (fun ev => match ev with Attempt _ => [] | Sleep d => [d] end) trace.

End Tenacity.

(* ===================================================================== *)
(** ** [src/services/llm_service.py] *)
(* ===================================================================== *)

Module LLMService.
Import Py Schemas Config Tenacity.

(** The chat model clients of LangChain, as constructed. *)
Inductive ChatModel : Type :=
| ChatOpenAI (model : string) (api_key : option string) (temperature : float)
| ChatAnthropic (model : string) (api_key : option string) (temperature : float).

(** Truth value of a [str | None]. *)
Definition opt_str_truthy (o : option string) : bool :=
  match o with Some s => str_truthy s | None => false end.

Definition _initialize_llm (settings : Settings) : res ChatModel :=
  let provider := get_llm_provider settings in
  if String.eqb provider "openai" then
    if negb (opt_str_truthy (openai_api_key settings))
    then Err (ValueError "OpenAI API key is required but not configured")
    else Ok (ChatOpenAI (llm_model settings) (openai_api_key settings) 0)
  else if String.eqb provider "anthropic" then
    if negb (opt_str_truthy (anthropic_api_key settings))
    then Err (ValueError "Anthropic API key is required but not configured")
    else Ok (ChatAnthropic (llm_model settings) (anthropic_api_key settings) 0)
  else Err (ValueError ("Unsupported LLM provider: " ++ provider)).

(** [class LLMService]: the settings and the client ([parser] and [prompt]
    are fixed by the class). *)
Record LLMService : Type := {
  settings : Settings;
  llm : ChatModel
}.

(** [LLMService.__init__], given what [get_settings()] returns. *)
Definition __init__ (s : Settings) : res LLMService :=
  res_bind (_initialize_llm s) (fun client => Ok {| settings := s; llm := client |}).

Definition is_configured (self : LLMService) : bool :=
  let provider := get_llm_provider (settings self) in
  if String.eqb provider "openai" then opt_str_truthy (openai_api_key (settings self))
  else if String.eqb provider "anthropic" then opt_str_truthy (anthropic_api_key (settings self))
  else false.

(** The behaviour of the chain [self.prompt | self.llm]: what its [k]-th
    invocation ([k = 0, 1, ...]) on a message gives, the text of the
    completion or the exception raised. *)
Definition Chain : Type := nat -> string -> res string.

(** LangChain's [parse_json_markdown], the reader behind the output
    parsers.  A text that [json.loads] accepts is read as [json.loads]
    reads it.  Any other text goes through the library's repairs -- a
    Markdown code fence is unwrapped, an object that was cut short is
    completed, a longer text is cut back until it parses -- and these are
    the call [json_repair], which raises [JSONDecodeError] when no repair
    helps. *)
Definition parse_json_markdown `{Runtime} (text : string) : res pyval :=
  match json_loads text with
  | Ok obj => Ok obj
  | Err _ => json_repair text
  end.

(** [self.parser.parse(text)], the strict parse of LangChain's
    [PydanticOutputParser]: the text is read by [parse_json_markdown] and
    the object validated against [ExpenseExtraction]; a text that cannot
    be read and an object that does not validate both surface as the
    parser's own exception. *)
Definition parser_parse `{Runtime} (text : string) : res ExpenseExtraction :=
  match res_bind (parse_json_markdown text) (fun obj => ExpenseExtraction_of obj) with
  | Ok parsed => Ok parsed
  | Err _ => Err (OutputParserException "Failed to parse ExpenseExtraction from completion")
  end.

Definition _extract_and_parse_json `{Runtime} (text : string) : res ExpenseExtraction :=
  let start_idx := find text "{" in
  let end_idx := rfind text "}" + 1 in
  if (start_idx =? -1) || (end_idx =? 0)
  then Err (ValueError "No JSON found in response")
  else
    let json_str := slice text start_idx end_idx in
    res_bind (json_loads json_str) (fun data => ExpenseExtraction_of data).

(** The body of [extract_expense], one attempt: invoke the chain, parse
    strictly, fall back to [_extract_and_parse_json]; the outer handler
    logs and re-raises. *)
Definition extract_expense_body `{Runtime} (chain : Chain) (call : nat)
    (message : string) : res ExpenseExtraction :=
  match chain call message with
  | Err e => Err e
  | Ok response_text =>
      match parser_parse response_text with
      | Ok parsed_data => Ok parsed_data
      | Err _ => _extract_and_parse_json response_text
      end
  end.

(** [extract_expense] as decorated:
    [@retry(stop=stop_after_attempt(3),
            wait=wait_exponential(multiplier=1, min=2, max=10), reraise=True)].
    Attempt [n] is the chain's call number [n - 1]. *)
Definition extract_expense `{Runtime} (fuel : nat) (chain : Chain) (message : string)
  : option (res ExpenseExtraction * list event) :=
  retrying fuel (stop_after_attempt 3) (wait_exponential 1 2 10)
    (fun attempt_number => extract_expense_body chain (Nat.pred attempt_number) message) 1.

(** What a caller that awaits [extract_expense] gets: the value returned or
    the exception re-raised.  Three iterations of the loop always suffice
    (see [retrying_terminates]), so the last case is never taken. *)
Definition awaited `{Runtime} (chain : Chain) (message : string) : res ExpenseExtraction :=
  match extract_expense 3 chain message with
  | Some (r, _) => r
  | None => Err (ProviderError "retry loop did not return")
  end.

End LLMService.

(* ===================================================================== *)
(** ** [src/models/models.py] and the database session *)
(* ===================================================================== *)

Module Models.
Import Py.

(** A row of the table [expenses]; [id] is [None] until the row is
    flushed.  ([added_at] is filled by the database and never read here.) *)
Record Expense : Type := {
  id : option Z;
  user_id : Z;
  description : string;
  amount : Decimal;
  category : string
}.

(** The operations [ExpenseService] calls on its SQLAlchemy session, over
    any state [S] and with any behaviour. *)
Class Session (S : Type) : Type := {
  add : Expense -> M S unit;
  commit : M S unit;
  refresh : Expense -> M S Expense
}.

(** An in-memory database: the committed rows, the objects added and not
    yet flushed, and the next primary key. *)
Record Db : Type := {
  table : list Expense;
  pending : list Expense;
  next_id : Z
}.

(** Which operation of the store fails, and how. *)
Record Faults : Type := {
  add_fault : option exn;
  commit_fault : option exn;
  refresh_fault : option exn
}.

Definition healthy : Faults :=
  {| add_fault := None; commit_fault := None; refresh_fault := None |}.

Fixpoint assign_ids (first : Z) (rows : list Expense) : list Expense :=
  match rows with
  | [] => []
  | r :: rest =>
      {| id := Some first; user_id := user_id r; description := description r;
         amount := amount r; category := category r |} :: assign_ids (first + 1) rest
  end.

Definition Decimal_eqb (a b : Decimal) : bool :=
  match a, b with
  | DecFinite s c e, DecFinite s' c' e' => Bool.eqb s s' && (c =? c')%N && (e =? e')
  | DecInfinity s, DecInfinity s' => Bool.eqb s s'
  | DecNaN, DecNaN => true
  | _, _ => false
  end.

(** Is [row] the stored form of the object [e]? *)
Definition row_of (e row : Expense) : bool :=
  (user_id e =? user_id row) && String.eqb (description e) (description row) &&
  Decimal_eqb (amount e) (amount row) && String.eqb (category e) (category row).

Definition mem_add (f : Faults) (e : Expense) : M Db unit :=
  fun db =>
    match add_fault f with
    | Some x => (Err x, db)
    | None => (Ok tt, {| table := table db; pending := pending db ++ [e];
                         next_id := next_id db |})
    end.

Definition mem_commit (f : Faults) : M Db unit :=
  fun db =>
    match commit_fault f with
    | Some x => (Err x, db)
    | None => (Ok tt, {| table := table db ++ assign_ids (next_id db) (pending db);
                         pending := [];
                         next_id := next_id db + Z.of_nat (List.length (pending db)) |})
    end.

Definition mem_refresh (f : Faults) (e : Expense) : M Db Expense :=
  fun db =>
    match refresh_fault f with
    | Some x => (Err x, db)
    | None =>
        match List.find (row_of e) (rev (table db)) with
        | Some row => (Ok row, db)
        | None => (Err (SQLAlchemyError "Instance is not persistent within this Session"), db)
        end
    end.

Definition MemSession (f : Faults) : Session Db :=
  {| add := mem_add f; commit := mem_commit f; refresh := mem_refresh f |}.

End Models.

(* ===================================================================== *)
(** ** [src/services/expense_service.py] *)
(* ===================================================================== *)

Module ExpenseService.
Import Py Schemas.

Section Service.

Context {S : Type} {db : Models.Session S}.

(** [self.llm_service.extract_expense], the injected collaborator: what
    awaiting it on a message gives. *)
Variable extract_expense : string -> res ExpenseExtraction.

Definition create_expense (expense_data : ExpenseCreate) : M S Models.Expense :=
  let expense :=
    {| Models.id := None;
       Models.user_id := ec_user_id expense_data;
       Models.description := ec_description expense_data;
       Models.amount := ec_amount expense_data;
       Models.category := value (ec_category expense_data) |} in
  (Models.add expense ;;;
   Models.commit ;;;
   expense' <- Models.refresh expense ;;
   ret expense')%py.

(** [all([extraction.description, extraction.amount, extraction.category])]:
    [None], the empty string and a zero amount are false. *)
Definition all_fields (extraction : ExpenseExtraction) : bool :=
  match description extraction with Some d => str_truthy d | None => false end &&
  match amount extraction with Some a => float_truthy a | None => false end &&
  match category extraction with Some c => str_truthy (value c) | None => false end.

Definition not_an_expense : ExpenseResponse :=
  {| success := false;
     message := "This doesn't look like an expense. Try something like: 'Pizza 20 reais'";
     expense_id := None |}.

Definition incomplete : ExpenseResponse :=
  {| success := false;
     message := "Could not extract all expense details. Please provide description, amount, and try again.";
     expense_id := None |}.

Definition error_processing : ExpenseResponse :=
  {| success := false;
     message := "Sorry, there was an error processing your expense. Please try again.";
     expense_id := None |}.

Definition added (cat : ExpenseCategory) (new_id : option Z) : ExpenseResponse :=
  {| success := true;
     message := value cat ++ " expense added âœ…";
     expense_id := new_id |}.

Definition process_message (user_id : Z) (message : string) : M S ExpenseResponse :=
  try_except
    (extraction <- lift (extract_expense message) ;;
     if negb (is_expense extraction) then ret not_an_expense
     else if negb (all_fields extraction) then ret incomplete
     else
       match description extraction, amount extraction, category extraction with
       | Some d, Some a, Some c =>
           expense_create <- lift (ExpenseCreate_new user_id d (Decimal_of_str_float a) c) ;;
           expense <- create_expense expense_create ;;
           ret (added c (Models.id expense))
       | _, _, _ =>
           (* not reached once [all_fields] holds: [str(None)] is no
              numeral for [Decimal] *)
           raise (TypeError "NoneType")
       end)%py
    (fun e => ret error_processing).

End Service.

End ExpenseService.

(* ===================================================================== *)
(** ** Predicates of the statements, and the fixtures of the examples *)
(* ===================================================================== *)

Module Texts.
Import Py.

(** Does the character [c] occur in [s]? *)
Fixpoint has_char (c : ascii) (s : string) : bool :=
  match s with
  | EmptyString => false
  | String a s' => Ascii.eqb a c || has_char c s'
  end.


(** The text of a JSON object: an opening brace, the members, a closing
    brace. *)
Definition braced (mid : string) : string := "{" ++ mid ++ "}".

End Texts.

Module Fixtures.
Import Py Schemas Config Texts.

(** The double quote, as a one-character text. *)
Definition dq : string := String (ascii_of_nat 34) EmptyString.

(** ["key": value] as JSON writes a member. *)
Definition member (key value : string) : string := dq ++ key ++ dq ++ ": " ++ value.

Definition json_object (is_expense description amount category : string) : string :=
  braced (member "is_expense" is_expense ++ ", " ++ member "description" description
          ++ ", " ++ member "amount" amount ++ ", " ++ member "category" category).

(** The completions of the scenarios: a pizza for 20, a greeting, and an
    expense with a negative amount. *)
Definition pizza_json : string :=
  json_object "true" (dq ++ "Pizza" ++ dq) "20.0" (dq ++ "Food" ++ dq).

Definition hello_json : string := json_object "false" "null" "null" "null".

Definition refund_json : string :=
  json_object "true" (dq ++ "Refund" ++ dq) "-5" (dq ++ "Other" ++ dq).

Definition pizza_kwargs : list (string * pyval) :=
  [("is_expense", PBool true); ("description", PStr "Pizza");
   ("amount", PFloat 20); ("category", PStr "Food")].

Definition hello_kwargs : list (string * pyval) :=
  [("is_expense", PBool false); ("description", PNone);
   ("amount", PNone); ("category", PNone)].

Definition refund_kwargs : list (string * pyval) :=
  [("is_expense", PBool true); ("description", PStr "Refund");
   ("amount", PInt (-5)); ("category", PStr "Other")].

(** A stand-in for [json.loads] that knows the three completions above and
    rejects every other text. *)
Definition fixture_json_loads (text : string) : res pyval :=
  if String.eqb text pizza_json then Ok (PDict pizza_kwargs)
  else if String.eqb text hello_json then Ok (PDict hello_kwargs)
  else if String.eqb text refund_json then Ok (PDict refund_kwargs)
  else Err (JSONDecodeError "Expecting value").

(** Two completions that [json.loads] rejects and the library repairs: the
    pizza completion followed by a second object, and the pizza completion
    cut short before its closing brace. *)
Definition pizza_then_hello : string := pizza_json ++ " and " ++ hello_json.

Definition truncated_pizza_json : string :=
  substring 0 (Nat.pred (String.length pizza_json)) pizza_json.

(** A stand-in for the repairs of [parse_json_markdown]: the first object
    of [pizza_then_hello], the completed object of [truncated_pizza_json];
    no repair helps the other texts of the examples, which start with
    prose. *)
Definition fixture_json_repair (text : string) : res pyval :=
  if String.eqb text pizza_then_hello then Ok (PDict pizza_kwargs)
  else if String.eqb text truncated_pizza_json then Ok (PDict pizza_kwargs)
  else Err (JSONDecodeError "Expecting value").

(** A stand-in for the numeral reader that knows one numeral. *)
Definition fixture_float_of_str (text : string) : option float :=
  if String.eqb text "20" then Some 20%float else None.

Definition fixture_runtime : Runtime :=
  {| json_loads := fixture_json_loads;
     json_repair := fixture_json_repair;
     float_of_str := fixture_float_of_str |}.

(** A chain that times out, then answers with prose, then with the pizza
    completion. *)
Definition flaky_chain : LLMService.Chain :=
  fun call _ =>
    match call with
    | O => Err (ProviderError "timeout")
    | S O => Ok "Sure! Let me think about that."
    | _ => Ok pizza_json
    end.

(** A chain that is down: its [k]-th call fails with an error of its own. *)
Definition dead_chain : LLMService.Chain :=
  fun call _ =>
    Err (ProviderError (match call with
                        | O => "503 (first)"
                        | S O => "503 (second)"
                        | S (S O) => "503 (third)"
                        | _ => "503 (later)"
                        end)).

Definition pizza : ExpenseExtraction :=
  {| is_expense := true; description := Some "Pizza";
     amount := Some 20%float; category := Some FOOD |}.

Definition hello : ExpenseExtraction :=
  {| is_expense := false; description := None; amount := None; category := None |}.

(** A description of 501 characters. *)
Definition long_description : string :=
  string_of_list_ascii (repeat "a"%char 501).

Definition long_pizza : ExpenseExtraction :=
  {| is_expense := true; description := Some long_description;
     amount := Some 20%float; category := Some FOOD |}.

Definition empty_db : Models.Db :=
  {| Models.table := []; Models.pending := []; Models.next_id := 1 |}.

(** A store whose [commit] fails. *)
Definition commit_fails : Models.Faults :=
  {| Models.add_fault := None;
     Models.commit_fault := Some (SQLAlchemyError "connection lost");
     Models.refresh_fault := None |}.

(** What [ExpenseCreate] holds for the pizza of user 7, and the object
    [create_expense] adds to the session for it. *)
Definition pizza_create : ExpenseCreate :=
  {| ec_user_id := 7; ec_description := "Pizza";
     ec_amount := DecFinite false 200 (-1); ec_category := FOOD |}.

Definition pizza_object : Models.Expense :=
  {| Models.id := None; Models.user_id := 7; Models.description := "Pizza";
     Models.amount := DecFinite false 200 (-1); Models.category := "Food" |}.

(** Settings with a model name and the two credentials. *)
Definition settings_for (model : string) (openai anthropic : option string) : Settings :=
  {| openai_api_key := openai; anthropic_api_key := anthropic; llm_model := model |}.

(** The pauses read word for word: exponential backoff starting at 2 and
    capped at 10, the pause after attempt 1, 2, 3, ... being 2, 4, 8 and
    then 10. *)
Definition backoff_as_worded (attempt_number : nat) : Z :=
  Z.min 10 (2 * 2 ^ (Z.of_nat attempt_number - 1)).

(** The selection rule read word for word, containment being the plain
    (case-sensitive) one: a name containing gpt selects openai, a name
    containing claude selects anthropic, any other name selects openai. *)
Definition selection_as_worded (s : Settings) : Prop :=
  (contains "gpt" (llm_model s) = true -> get_llm_provider s = "openai")
  /\ (contains "claude" (llm_model s) = true -> get_llm_provider s = "anthropic")
  /\ (contains "gpt" (llm_model s) = false -> contains "claude" (llm_model s) = false ->
      get_llm_provider s = "openai").

End Fixtures.

(* ===================================================================== *)
(** ** The request and health schemas of [src/schemas/schemas.py] *)
(* ===================================================================== *)

Module Requests.
Import Py.

(** [class MessageRequest(BaseModel)]. *)
Record MessageRequest : Type := {
  user_id : Z;
  message : string
}.

(** [MessageRequest(user_id=..., message=...)] with [user_id: gt=0] and
    [message: min_length=1, max_length=500]. *)
Definition MessageRequest_new (user_id : Z) (message : string) : res MessageRequest :=
  let e1 := if 0 <? user_id then [] else ["user_id"] in
  let e2 := if (1 <=? py_len message) && (py_len message <=? 500)
            then [] else ["message"] in
  match (e1 ++ e2)%list with
  | [] => Ok {| user_id := user_id; message := message |}
  | errors => Err (ValidationError "MessageRequest" errors)
  end.

(** [class HealthResponse(BaseModel)]; the three fields are [Literal]s. *)
Record HealthResponse : Type := {
  status : string;
  database : string;
  llm : string
}.

(** The values the [Literal] annotations of [HealthResponse] allow. *)
Definition HealthResponse_valid (r : HealthResponse) : bool :=
  existsb (String.eqb (status r)) ["healthy"; "unhealthy"] &&
  existsb (String.eqb (database r)) ["connected"; "disconnected"] &&
  existsb (String.eqb (llm r)) ["configured"; "not_configured"].

End Requests.

(* ===================================================================== *)
(** ** [src/models/models.py]: users, stored expenses, and queries *)
(* ===================================================================== *)

Module Database.
Import Py.

(** A row of the table [users], as a query or a refresh loads it. *)
Record User : Type := {
  id : Z;
  telegram_id : string
}.

(** A row of the table [expenses] as a query loads it: the columns of
    [Expense] together with [added_at]. *)
Record StoredExpense : Type := {
  expense : Models.Expense;
  added_at : Z
}.

(** The session calls of the user and listing code, beside [add],
    [commit] and [refresh] of an expense: adding and refreshing the object
    [User(telegram_id=t)], the rows [db.query(User)] and
    [db.query(Expense)] range over, and [db.execute(text("SELECT 1"))]. *)
Class Queries (S : Type) : Type := {
  add_user : string -> M S unit;
  refresh_user : string -> M S User;
  query_users : M S (list User);
  query_expenses : M S (list StoredExpense);
  execute_select_1 : M S unit
}.

(** [.filter(Expense.user_id == user_id)]. *)
Definition filter_user_id (user_id : Z) (rows : list StoredExpense) : list StoredExpense :=
  filter (fun r => Models.user_id (expense r) =? user_id) rows.

(** [.order_by(Expense.added_at.desc())]: newest first; rows with the same
    timestamp keep the order the table gave them. *)
Fixpoint insert_desc (r : StoredExpense) (sorted : list StoredExpense) : list StoredExpense :=
  match sorted with
  | [] => [r]
  | y :: rest =>
      if added_at y <=? added_at r then r :: y :: rest
      else y :: insert_desc r rest
  end.

Definition order_by_added_at_desc (rows : list StoredExpense) : list StoredExpense :=
  fold_right insert_desc [] rows.

(** [.limit(limit).offset(offset)], that is [LIMIT limit OFFSET offset]:
    skip [offset] rows, then keep at most [limit]. *)
Definition limit_offset {A} (limit offset : Z) (rows : list A) : list A :=
  firstn (Z.to_nat limit) (skipn (Z.to_nat offset) rows).

(** [.filter(User.telegram_id == telegram_id).first()]. *)
Definition first_by_telegram_id (telegram_id : string) (rows : list User) : option User :=
  List.find (fun u => String.eqb (Database.telegram_id u) telegram_id) rows.

End Database.

(* ===================================================================== *)
(** ** [src/services/expense_service.py]: listing and user management *)
(* ===================================================================== *)

Module ExpenseQueries.
Import Py.

Section Service.

Context {S : Type} {db : Models.Session S} {q : Database.Queries S}.

(** The query is sent as [LIMIT limit OFFSET offset]; PostgreSQL, the
    database of [Settings.database_url], refuses a negative bound. *)
Definition get_user_expenses (user_id limit offset : Z) : M S (list Database.StoredExpense) :=
  if limit <? 0 then raise (SQLAlchemyError "LIMIT must not be negative")
  else if offset <? 0 then raise (SQLAlchemyError "OFFSET must not be negative")
  else
    (rows <- Database.query_expenses ;;
     ret (Database.limit_offset limit offset
            (Database.order_by_added_at_desc (Database.filter_user_id user_id rows))))%py.

Definition get_user_by_telegram_id (telegram_id : string) : M S (option Database.User) :=
  (rows <- Database.query_users ;;
   ret (Database.first_by_telegram_id telegram_id rows))%py.

Definition user_exists (telegram_id : string) : M S bool :=
  (rows <- Database.query_users ;;
   ret (match Database.first_by_telegram_id telegram_id rows with
        | Some _ => true
        | None => false
        end))%py.

Definition create_user (telegram_id : string) : M S Database.User :=
  (Database.add_user telegram_id ;;;
   Models.commit ;;;
   user <- Database.refresh_user telegram_id ;;
   ret user)%py.

End Service.

End ExpenseQueries.

(* ===================================================================== *)
(** ** [src/api/routes.py] *)
(* ===================================================================== *)

Module Routes.
Import Py Schemas.

(** What a handler hands to FastAPI: a body (status 200), or an
    [HTTPException] it raised.  [RequestValidationError] is FastAPI's own
    answer (status 422) to a body that does not validate.  An exception
    that escapes the handler is the [Err] of the computation. *)
Inductive reply (A : Type) : Type :=
| Reply (body : A)
| HTTPException (status_code : Z) (detail : string)
| RequestValidationError (fields : list string).
Arguments Reply {A} body.
Arguments HTTPException {A} status_code detail.
Arguments RequestValidationError {A} fields.

(** [str(n)] for an [int]. *)
Definition str_of_int (n : Z) : string :=
  DecimalString.NilZero.string_of_int (Z.to_int n).

(** [float(d)] for a [Decimal]: the nearest float. *)
Definition float_of_Decimal (d : Decimal) : float :=
  match d with
  | DecFinite s 0%N _ => SF2Prim (S754_zero s)
  | DecFinite s (Npos p) e =>
      if 0 <=? e then nearest_float s (p * Z.to_pos (10 ^ e)) 1
      else nearest_float s p (Z.to_pos (10 ^ (- e)))
  | DecInfinity s => if s then neg_infinity else infinity
  | DecNaN => nan
  end.

(** An entry of the list the listing route returns. *)
Record ExpenseItem : Type := {
  item_id : option Z;
  item_description : string;
  item_amount : float;
  item_category : string;
  item_added_at : string
}.

(** The body of the listing route. *)
Record ExpensesBody : Type := {
  body_telegram_id : string;
  total_expenses : Z;
  expenses : list ExpenseItem
}.

Section Handlers.

Context {S : Type} {db : Models.Session S} {q : Database.Queries S}.

(** [datetime.isoformat], the one library call of the routes that is not
    computed here. *)
Variable isoformat : Z -> string.

(** The module-level [llm_service] and the [extract_expense] the module-level
    [expense_service] awaits. *)
Variable llm_service : LLMService.LLMService.
Variable extract_expense : string -> res ExpenseExtraction.

Definition health_check : M S Requests.HealthResponse :=
  (db_status <- try_except
                  (Database.execute_select_1 ;;; ret "connected")
                  (fun e => ret "disconnected") ;;
   let llm_status :=
     if LLMService.is_configured llm_service then "configured" else "not_configured" in
   let overall_status :=
     if String.eqb db_status "connected" && String.eqb llm_status "configured"
     then "healthy" else "unhealthy" in
   ret {| Requests.status := overall_status;
          Requests.database := db_status;
          Requests.llm := llm_status |})%py.

Definition process_message (request : Requests.MessageRequest) : M S (reply ExpenseResponse) :=
  try_except
    (let telegram_id := str_of_int (Requests.user_id request) in
     user <- ExpenseQueries.get_user_by_telegram_id telegram_id ;;
     user <- match user with
             | None => ExpenseQueries.create_user telegram_id
             | Some found => ret found
             end ;;
     let numeric_user_id := Database.id user in
     response <- ExpenseService.process_message extract_expense numeric_user_id
                   (Requests.message request) ;;
     ret (Reply response))%py
    (fun e => ret (HTTPException 500 "Internal server error processing message")).

(** [POST /process] as FastAPI serves it: the body is validated as a
    [MessageRequest] before the handler runs. *)
Definition post_process (user_id : Z) (message : string) : M S (reply ExpenseResponse) :=
  match Requests.MessageRequest_new user_id message with
  | Ok request => process_message request
  | Err (ValidationError _ fields) => ret (RequestValidationError fields)
  | Err e => raise e
  end.

Definition item_of (exp : Database.StoredExpense) : ExpenseItem :=
  {| item_id := Models.id (Database.expense exp);
     item_description := Models.description (Database.expense exp);
     item_amount := float_of_Decimal (Models.amount (Database.expense exp));
     item_category := Models.category (Database.expense exp);
     item_added_at := isoformat (Database.added_at exp) |}.

Definition get_user_expenses (telegram_id : string) (limit offset : Z)
  : M S (reply ExpensesBody) :=
  (user <- ExpenseQueries.get_user_by_telegram_id telegram_id ;;
   match user with
   | None => ret (HTTPException 404 "User not found")
   | Some user =>
       expenses <- ExpenseQueries.get_user_expenses (Database.id user) limit offset ;;
       ret (Reply {| body_telegram_id := telegram_id;
                     total_expenses := Z.of_nat (List.length expenses);
                     expenses := map item_of expenses |})
   end)%py.

End Handlers.

End Routes.

(* ===================================================================== *)
(** ** An in-memory database with both tables *)
(* ===================================================================== *)

Module MemoryDb.
Import Py.

(** The committed rows of both tables, the objects added and not yet
    flushed, the next primary keys, and the time [added_at] defaults to. *)
Record Db : Type := {
  users : list Database.User;
  expenses : list Database.StoredExpense;
  pending_users : list string;
  pending_expenses : list Models.Expense;
  next_user_id : Z;
  next_expense_id : Z;
  now : Z
}.

Fixpoint new_users (first : Z) (telegram_ids : list string) : list Database.User :=
  match telegram_ids with
  | [] => []
  | t :: rest =>
      {| Database.id := first; Database.telegram_id := t |} :: new_users (first + 1) rest
  end.

Definition stamp (time : Z) (rows : list Models.Expense) : list Database.StoredExpense :=
  map (fun r => {| Database.expense := r; Database.added_at := time |}) rows.

(** Would flushing the telegram ids [ts] break the unique index on
    [users.telegram_id], given the ids [taken]? *)
Fixpoint violates_unique (taken : list string) (ts : list string) : bool :=
  match ts with
  | [] => false
  | t :: rest => existsb (String.eqb t) taken || violates_unique (t :: taken) rest
  end.

Definition db_add (e : Models.Expense) : M Db unit :=
  fun d =>
    (Ok tt, {| users := users d; expenses := expenses d;
               pending_users := pending_users d;
               pending_expenses := pending_expenses d ++ [e];
               next_user_id := next_user_id d; next_expense_id := next_expense_id d;
               now := now d |}).

Definition db_add_user (t : string) : M Db unit :=
  fun d =>
    (Ok tt, {| users := users d; expenses := expenses d;
               pending_users := pending_users d ++ [t];
               pending_expenses := pending_expenses d;
               next_user_id := next_user_id d; next_expense_id := next_expense_id d;
               now := now d |}).

(** [commit]: the pending users, then the pending expenses, become rows;
    a telegram id that is already taken fails the flush. *)
Definition db_commit : M Db unit :=
  fun d =>
    if violates_unique (map Database.telegram_id (users d)) (pending_users d)
    then (Err (SQLAlchemyError "duplicate key value violates unique constraint"), d)
    else
      (Ok tt,
       {| users := users d ++ new_users (next_user_id d) (pending_users d);
          expenses := expenses d
                      ++ stamp (now d) (Models.assign_ids (next_expense_id d) (pending_expenses d));
          pending_users := [];
          pending_expenses := [];
          next_user_id := next_user_id d + Z.of_nat (List.length (pending_users d));
          next_expense_id := next_expense_id d + Z.of_nat (List.length (pending_expenses d));
          now := now d |}).

Definition db_refresh (e : Models.Expense) : M Db Models.Expense :=
  fun d =>
    match List.find (Models.row_of e) (rev (map Database.expense (expenses d))) with
    | Some row => (Ok row, d)
    | None => (Err (SQLAlchemyError "Instance is not persistent within this Session"), d)
    end.

Definition db_refresh_user (t : string) : M Db Database.User :=
  fun d =>
    match Database.first_by_telegram_id t (users d) with
    | Some u => (Ok u, d)
    | None => (Err (SQLAlchemyError "Instance is not persistent within this Session"), d)
    end.

Definition session : Models.Session Db :=
  {| Models.add := db_add; Models.commit := db_commit; Models.refresh := db_refresh |}.

Definition queries : Database.Queries Db :=
  {| Database.add_user := db_add_user;
     Database.refresh_user := db_refresh_user;
     Database.query_users := fun d => (Ok (users d), d);
     Database.query_expenses := fun d => (Ok (expenses d), d);
     Database.execute_select_1 := fun d => (Ok tt, d) |}.

(** A database at rest: nothing pending, no two users with the same
    telegram id (the unique index) or the same id (the primary key), and
    every user id below the next one. *)
Definition consistent (d : Db) : Prop :=
  pending_users d = [] /\ pending_expenses d = []
  /\ NoDup (map Database.telegram_id (users d))
  /\ Forall (fun u => Database.id u < next_user_id d) (users d)
  /\ NoDup (map Database.id (users d)).

End MemoryDb.

(* ===================================================================== *)
(** ** Predicates and fixtures of the further properties *)
(* ===================================================================== *)

Module Checks.
Import Py Schemas.

(** What [ExpenseCreate] guarantees of a row built from it: a positive user
    id, a description of 1 to 500 characters, a finite amount above zero
    with at most two decimal places, and the label of a category. *)
Definition row_valid (r : Models.Expense) : bool :=
  (0 <? Models.user_id r)
  && (1 <=? py_len (Models.description r)) && (py_len (Models.description r) <=? 500)
  && amount_ok (Models.amount r)
  && match ExpenseCategory_of_value (Models.category r) with
     | Some _ => true
     | None => false
     end.

(** Newest first. *)
Definition newest_first (rows : list Database.StoredExpense) : Prop :=
  StronglySorted (fun a b => Database.added_at b <= Database.added_at a) rows.

(** The sum of the pauses of a trace. *)
Definition total_sleep (trace : list Tenacity.event) : Z :=
  fold_right Z.add 0 (Tenacity.sleeps trace).

End Checks.

Module MoreFixtures.
Import Py Schemas Texts Fixtures.

(** An extraction without an amount. *)
Definition pizza_without_amount : ExpenseExtraction :=
  {| is_expense := true; description := Some "Pizza";
     amount := None; category := Some FOOD |}.

(** A store whose [refresh] fails. *)
Definition refresh_fails : Models.Faults :=
  {| Models.add_fault := None;
     Models.commit_fault := None;
     Models.refresh_fault := Some (SQLAlchemyError "connection lost") |}.

Definition ana : Database.User := {| Database.id := 1; Database.telegram_id := "7" |}.

Definition stored (id user : Z) (description : string) (time : Z) : Database.StoredExpense :=
  {| Database.expense :=
       {| Models.id := Some id; Models.user_id := user;
          Models.description := description;
          Models.amount := DecFinite false 100 (-1);
          Models.category := "Food" |};
     Database.added_at := time |}.

(** One user and four expenses, three of them hers. *)
Definition small_db : MemoryDb.Db :=
  {| MemoryDb.users := [ana];
     MemoryDb.expenses :=
       [stored 1 1 "bread" 10; stored 2 2 "bus" 11; stored 3 1 "milk" 30;
        stored 4 1 "rent" 20];
     MemoryDb.pending_users := [];
     MemoryDb.pending_expenses := [];
     MemoryDb.next_user_id := 3;
     MemoryDb.next_expense_id := 5;
     MemoryDb.now := 40 |}.

Definition configured_service : LLMService.LLMService :=
  {| LLMService.settings := settings_for "gpt-4" (Some "sk-test") None;
     LLMService.llm := LLMService.ChatOpenAI "gpt-4" (Some "sk-test") 0 |}.

End MoreFixtures.

(* ===================================================================== *)
(** ** Properties *)
(* ===================================================================== *)

Import Py Schemas Config Tenacity LLMService Texts Fixtures.

(** The case of [process_message] that answers [o] in state [s] without
    having reached the store: the run equation holds by computation, and
    the clauses about failures follow from the facts of the case. *)
Ltac answered_with o s :=
  exists o, s; split; [reflexivity|];
  split; [intros; first [congruence | split; reflexivity]|];
  split; [intros; congruence|];
  split; [intros _; split; [reflexivity | discriminate] | repeat split].

(** *** The runtime model on known values *)

(** [round(x, 2)] as CPython computes it. *)
Example round_known_values :
  round 2.675 2 = 2.67%float        (* the float 2.675 lies below the tie *)
  /\ round 0.125 2 = 0.12%float     (* a tie: to the even cent *)
  /\ round 0.375 2 = 0.38%float     (* a tie: to the even cent *)
  /\ round 20.999 2 = 21%float
  /\ round 1e22 2 = 1e22%float
  /\ round (-0.001) 2 = (-0)%float
  /\ round infinity 2 = infinity.
Proof. repeat split; vm_compute; reflexivity. Qed.

(** [Decimal(str(x))] as CPython computes it: [Decimal('20.0')],
    [Decimal('0.12')], [Decimal('0.30000000000000004')], [Decimal('1e+22')],
    [Decimal('5e-324')], [Decimal('123456789012345.67')], [Decimal('inf')]. *)
Example Decimal_of_str_float_known_values :
  Decimal_of_str_float 20 = DecFinite false 200 (-1)
  /\ Decimal_of_str_float 0.12 = DecFinite false 12 (-2)
  /\ Decimal_of_str_float (0.1 + 0.2) = DecFinite false 30000000000000004 (-17)
  /\ Decimal_of_str_float 1e22 = DecFinite false 1 22
  /\ Decimal_of_str_float 5e-324 = DecFinite false 5 (-324)
  /\ Decimal_of_str_float 123456789012345.67 = DecFinite false 12345678901234567 (-2)
  /\ Decimal_of_str_float infinity = DecInfinity false.
Proof. repeat split; vm_compute; reflexivity. Qed.

Example find_and_slice_known_values :
  find "ab{c}d}e" "{" = 2 /\ rfind "ab{c}d}e" "}" = 6
  /\ slice "ab{c}d}e" 2 7 = "{c}d}"
  /\ find "abc" "{" = -1 /\ rfind "abc" "}" = -1
  /\ lower "GPT-4 Claude" = "gpt-4 claude".
Proof. repeat split; reflexivity. Qed.

(** *** Searching and slicing texts *)

Section StringFacts.

Variable c : ascii.

Lemma prefix_char (s : string) :
  prefix (String c "") s = match s with
                    | EmptyString => false
                    | String a _ => Ascii.eqb c a
                    end.
Proof.
  destruct s as [|a s]; simpl; [reflexivity|].
  destruct (ascii_dec c a) as [->|Hne].
  - rewrite Ascii.eqb_refl. destruct s; reflexivity.
  - symmetry. apply Ascii.eqb_neq. exact Hne.
Qed.

Lemma find_from_absent (s : string) (i : Z) :
  has_char c s = false -> find_from (String c "") s i = -1.
Proof.
  revert i. induction s as [|a s IH]; intros i H.
  - reflexivity.
  - cbn [has_char] in H. apply orb_false_iff in H as [Ha Hs].
    cbn [find_from]. rewrite prefix_char.
    rewrite Ascii.eqb_sym, Ha. apply IH, Hs.
Qed.

Lemma find_from_first (pre rest : string) (i : Z) :
  has_char c pre = false ->
  find_from (String c "") (pre ++ String c rest) i = i + Z.of_nat (String.length pre).
Proof.
  revert i. induction pre as [|a pre IH]; intros i H.
  - cbn [append find_from String.length]. rewrite prefix_char, Ascii.eqb_refl.
    cbn. lia.
  - cbn [has_char] in H. apply orb_false_iff in H as [Ha Hs].
    cbn [append find_from]. rewrite prefix_char.
    rewrite Ascii.eqb_sym, Ha, IH by exact Hs.
    cbn [String.length]. lia.
Qed.

Lemma find_from_present (s : string) (i : Z) :
  0 <= i -> has_char c s = true -> 0 <= find_from (String c "") s i.
Proof.
  revert i. induction s as [|a s IH]; intros i Hi H.
  - discriminate.
  - cbn [find_from]. rewrite prefix_char.
    destruct (Ascii.eqb c a) eqn:E; [exact Hi|].
    cbn [has_char] in H. rewrite Ascii.eqb_sym, E in H.
    apply IH; [lia | exact H].
Qed.

Lemma rfind_from_absent (s : string) (i : Z) :
  has_char c s = false -> rfind_from (String c "") s i = -1.
Proof.
  revert i. induction s as [|a s IH]; intros i H.
  - reflexivity.
  - cbn [has_char] in H. apply orb_false_iff in H as [Ha Hs].
    cbn [rfind_from]. rewrite (IH _ Hs), prefix_char.
    rewrite Ascii.eqb_sym, Ha. reflexivity.
Qed.

Lemma rfind_from_last (body post : string) (i : Z) :
  0 <= i -> has_char c post = false ->
  rfind_from (String c "") (body ++ String c post) i = i + Z.of_nat (String.length body).
Proof.
  revert i. induction body as [|a body IH]; intros i Hi H.
  - cbn [append rfind_from String.length].
    rewrite (rfind_from_absent _ _ H), prefix_char, Ascii.eqb_refl.
    cbn. lia.
  - cbn [append rfind_from]. rewrite IH by (lia || exact H).
    destruct (i + 1 + Z.of_nat (String.length body) =? -1) eqn:E.
    + apply Z.eqb_eq in E. lia.
    + cbn [String.length]. lia.
Qed.

End StringFacts.

Lemma substring_skip (pre s : string) (m : nat) :
  substring (String.length pre) m (pre ++ s) = substring 0 m s.
Proof.
  induction pre as [|a pre IH]; [reflexivity|].
  cbn [String.length append substring]. exact IH.
Qed.

Lemma substring_take (s post : string) :
  substring 0 (String.length s) (s ++ post) = s.
Proof.
  induction s as [|a s IH].
  - destruct post; reflexivity.
  - cbn [String.length append substring]. rewrite IH. reflexivity.
Qed.

Lemma length_append (s t : string) :
  String.length (s ++ t) = (String.length s + String.length t)%nat.
Proof.
  induction s as [|a s IH]; [reflexivity|].
  cbn [append String.length]. rewrite IH. reflexivity.
Qed.

Lemma has_char_append (ch : ascii) (s t : string) :
  has_char ch (s ++ t) = has_char ch s || has_char ch t.
Proof.
  induction s as [|a s IH]; [reflexivity|].
  cbn [append has_char]. rewrite IH, orb_assoc. reflexivity.
Qed.

(** The first opening brace and the last closing brace of prose around a
    braced text are the braces of that text, and the slice between them is
    the text. *)
Lemma slice_of_embedded (pre mid post : string) :
  has_char "{" pre = false -> has_char "}" post = false ->
  let text := pre ++ braced mid ++ post in
  find text "{" = Z.of_nat (String.length pre) /\
  rfind text "}" + 1 = Z.of_nat (String.length pre + String.length (braced mid)) /\
  slice text (find text "{") (rfind text "}" + 1) = braced mid.
Proof.
  intros Hpre Hpost text.
  assert (Hf : find text "{" = Z.of_nat (String.length pre)).
  { unfold find, text, braced. cbn [append].
    rewrite (find_from_first "{"%char pre _ 0 Hpre). lia. }
  assert (Hr : rfind text "}" + 1
               = Z.of_nat (String.length pre + String.length (braced mid))).
  { unfold rfind, text, braced.
    replace (pre ++ ("{" ++ mid ++ "}") ++ post)
      with ((pre ++ "{" ++ mid) ++ String "}" post).
    - rewrite (rfind_from_last "}"%char _ post 0 ltac:(lia) Hpost).
      rewrite !length_append. cbn [String.length]. lia.
    - clear. induction pre as [|a pre IH]; cbn [append].
      + f_equal. induction mid as [|b mid IHm]; cbn [append]; [reflexivity|].
        f_equal. exact IHm.
      + f_equal. exact IH. }
  split; [exact Hf|]. split; [exact Hr|].
  unfold slice. rewrite Hr, Hf.
  replace (Z.to_nat (Z.of_nat (String.length pre + String.length (braced mid))
                     - Z.of_nat (String.length pre)))
    with (String.length (braced mid)) by lia.
  rewrite Nat2Z.id. unfold text.
  rewrite substring_skip. apply substring_take.
Qed.

(** *** The tolerant fallback parse *)

Section Parsing.

Context {rt : Runtime}.

Lemma fallback_without_braces (text : string) :
  has_char "{" text = false \/ has_char "}" text = false ->
  _extract_and_parse_json text = Err (ValueError "No JSON found in response").
Proof.
  intros [H|H]; unfold _extract_and_parse_json.
  - unfold find. rewrite (find_from_absent "{"%char text 0 H). reflexivity.
  - unfold rfind. rewrite (rfind_from_absent "}"%char text 0 H).
    rewrite orb_true_r. reflexivity.
Qed.

Lemma fallback_reads_slice (pre mid post : string) :
  has_char "{" pre = false -> has_char "}" post = false ->
  _extract_and_parse_json (pre ++ braced mid ++ post)
  = res_bind (json_loads (braced mid)) (fun data => ExpenseExtraction_of data).
Proof.
  intros Hpre Hpost.
  destruct (slice_of_embedded pre mid post Hpre Hpost) as (Hf & Hr & Hs).
  unfold _extract_and_parse_json. cbv zeta in Hs. rewrite Hs, Hf, Hr.
  destruct (Z.of_nat (String.length pre) =? -1) eqn:E1;
    [apply Z.eqb_eq in E1; lia|].
  destruct (Z.of_nat (String.length pre + String.length (braced mid)) =? 0) eqn:E2;
    [apply Z.eqb_eq in E2; unfold braced in E2; cbn [append String.length] in E2; lia|].
  reflexivity.
Qed.



End Parsing.


(** Where [json.loads] rejects the embedded text the two parses part: the
    strict parse returns what the library's repair makes of the text, the
    fallback raises.  The attempt, which tries the strict parse first,
    returns the repaired object. *)
Example strict_parse_repairs_what_the_fallback_rejects :
  @parser_parse fixture_runtime pizza_then_hello = Ok pizza
  /\ (exists msg, @_extract_and_parse_json fixture_runtime pizza_then_hello
                    = Err (JSONDecodeError msg))
  /\ @extract_expense_body fixture_runtime (fun _ _ => Ok pizza_then_hello) 0 "Pizza 20"
     = Ok pizza
  /\ @parser_parse fixture_runtime truncated_pizza_json = Ok pizza
  /\ @_extract_and_parse_json fixture_runtime truncated_pizza_json
     = Err (ValueError "No JSON found in response").
Proof.
  split; [vm_compute; reflexivity|].
  split; [eexists; vm_compute; reflexivity|].
  repeat split; vm_compute; reflexivity.
Qed.

Example fallback_on_prose_only :
  @_extract_and_parse_json fixture_runtime "I could not find an expense."
  = Err (ValueError "No JSON found in response").
Proof. reflexivity. Qed.

(** *** Validation of the extracted amount *)

Lemma append_empty (s : string) : s ++ "" = s.
Proof.
  induction s as [|a s IH]; [reflexivity|].
  cbn [append]. rewrite IH. reflexivity.
Qed.

Section Amounts.

Context {rt : Runtime}.

Lemma field_amount_rejects (bad : pyval) :
  In bad [PInt (-5); PFloat (-5); PInt 0; PFloat 0] ->
  field_amount (Some bad) = None.
Proof.
  intros [<-|[<-|[<-|[<-|[]]]]]; vm_compute; reflexivity.
Qed.

Lemma rejected_amount_fails_model (kwargs : list (string * pyval)) :
  field_amount (dict_get kwargs "amount") = None ->
  exists fields,
    ExpenseExtraction_new kwargs = Err (ValidationError "ExpenseExtraction" fields)
    /\ In "amount" fields.
Proof.
  intro H. unfold ExpenseExtraction_new. rewrite H.
  set (f1 := field_is_expense _). set (f2 := field_description _).
  set (f4 := field_category _).
  exists (failed "is_expense" f1 ++ failed "description" f2 ++
          failed "amount" (@None (option float)) ++ failed "category" f4)%list.
  split.
  - destruct f1, f2, f4; reflexivity.
  - apply in_or_app. right. apply in_or_app. right.
    apply in_or_app. left. left. reflexivity.
Qed.

(** What a built model holds as its amount: nothing when none was given,
    and otherwise the rounding of an input that is above zero.  The
    rounding is the validator's, applied here and nowhere else. *)
Lemma built_amount (kwargs : list (string * pyval)) (r : ExpenseExtraction) :
  ExpenseExtraction_new kwargs = Ok r ->
  amount r = None
  \/ exists (v : pyval) (x : float),
       dict_get kwargs "amount" = Some v /\ coerce_float v = Some x
       /\ (0 <? x)%float = true /\ amount r = Some (round x 2).
Proof.
  unfold ExpenseExtraction_new.
  destruct (field_is_expense _) as [b|]; [|discriminate].
  destruct (field_description _) as [d|]; [|discriminate].
  destruct (field_amount (dict_get kwargs "amount")) as [a|] eqn:Hfield;
    [|destruct (field_category _); discriminate].
  destruct (field_category _) as [c|]; [|discriminate].
  intro Hr. injection Hr as <-. cbn [amount].
  unfold field_amount in Hfield.
  destruct (dict_get kwargs "amount") as [v|]; [|left; congruence].
  destruct v; cbn [validate_amount] in Hfield; try (left; congruence);
    (destruct (coerce_float _) as [y|] eqn:Hy; [|discriminate];
     destruct (0 <? y)%float eqn:Hpos; [|discriminate];
     right; eexists _, y; repeat split; [exact Hy | exact Hpos | congruence]).
Qed.

(** C7.  Whatever the other fields are (present or not, valid or not), an
    [ExpenseExtraction] given the amount -5 or 0, as an [int] or as a
    [float], is rejected with a [ValidationError] that names [amount]; no
    model is built and the amount is not clamped.  An attempt whose
    completion is a JSON object with such an amount therefore fails: the
    strict parse and the fallback both raise. *)
Theorem nonpositive_amount_is_rejected (kwargs : list (string * pyval)) (bad : pyval)
    (Hamount : dict_get kwargs "amount" = Some bad)
    (Hbad : In bad [PInt (-5); PFloat (-5); PInt 0; PFloat 0]) :
  (exists fields,
     ExpenseExtraction_new kwargs = Err (ValidationError "ExpenseExtraction" fields)
     /\ In "amount" fields)
  /\ (forall (chain : Chain) (call : nat) (message mid : string),
        chain call message = Ok (braced mid) ->
        json_loads (braced mid) = Ok (PDict kwargs) ->
        exists fields,
          extract_expense_body chain call message
          = Err (ValidationError "ExpenseExtraction" fields)).
Proof.
  assert (Hnew : exists fields,
             ExpenseExtraction_new kwargs = Err (ValidationError "ExpenseExtraction" fields)
             /\ In "amount" fields).
  { apply rejected_amount_fails_model. rewrite Hamount.
    apply field_amount_rejects, Hbad. }
  split; [exact Hnew|].
  intros chain call message mid Hchain Hjson.
  destruct Hnew as (fields & Hnew & _). exists fields.
  unfold extract_expense_body. rewrite Hchain.
  unfold parser_parse, parse_json_markdown. rewrite Hjson.
  cbn [res_bind ExpenseExtraction_of].
  rewrite Hnew.
  pose proof (fallback_reads_slice "" mid "" eq_refl eq_refl) as Hslice.
  cbn [append] in Hslice. rewrite append_empty in Hslice.
  rewrite Hslice, Hjson. cbn [res_bind ExpenseExtraction_of]. exact Hnew.
Qed.

(** C9.  The rounding of the amount is to the nearest cent with ties to
    the even cent.  The float 0.125 is exactly one eighth, half way between
    0.12 and 0.13: the model built from it holds 0.12, not 0.13, while
    0.375, half way between 0.37 and 0.38, gives 0.38.  Away from a tie,
    20.999 gives 21.0. *)
Theorem amount_rounding_is_half_even :
  Prim2SF 0.125 = S754_finite false (2 ^ 52) (-55)
  /\ ExpenseExtraction_new
       [("is_expense", PBool true); ("description", PStr "Test");
        ("amount", PFloat 0.125); ("category", PStr "Other")]
     = Ok {| is_expense := true; description := Some "Test";
             amount := Some 0.12%float; category := Some OTHER |}
  /\ ExpenseExtraction_new
       [("is_expense", PBool true); ("description", PStr "Test");
        ("amount", PFloat 0.125); ("category", PStr "Other")]
     <> Ok {| is_expense := true; description := Some "Test";
              amount := Some 0.13%float; category := Some OTHER |}
  /\ validate_amount (Some 0.375%float) = Some 0.38%float
  /\ ExpenseExtraction_new
       [("is_expense", PBool true); ("description", PStr "Test");
        ("amount", PFloat 20.999); ("category", PStr "Other")]
     = Ok {| is_expense := true; description := Some "Test";
             amount := Some 21%float; category := Some OTHER |}.
Proof.
  assert (Hbuilt : ExpenseExtraction_new
            [("is_expense", PBool true); ("description", PStr "Test");
             ("amount", PFloat 0.125); ("category", PStr "Other")]
          = Ok {| is_expense := true; description := Some "Test";
                  amount := Some 0.12%float; category := Some OTHER |})
    by (vm_compute; reflexivity).
  split; [vm_compute; reflexivity|]. split; [exact Hbuilt|]. split.
  - rewrite Hbuilt. intro Heq.
    apply (f_equal (fun r => match r with
                             | Ok m => match amount m with
                                       | Some x => (x <? 0.125)%float
                                       | None => false
                                       end
                             | Err _ => false
                             end)) in Heq.
    vm_compute in Heq. discriminate.
  - split; vm_compute; reflexivity.
Qed.

(** C6 at its failing input.  An amount of a tenth of a cent passes the
    check [gt=0], which reads the input, and is rounded afterwards: the
    model is built, and its amount is present and equal to zero.  The
    decision logic then sees a zero amount as a missing one. *)
Theorem subcent_amount_is_stored_as_zero :
  (0 <? 0.001)%float = true
  /\ ExpenseExtraction_new
       [("is_expense", PBool true); ("description", PStr "Gum");
        ("amount", PFloat 0.001); ("category", PStr "Food")]
     = Ok {| is_expense := true; description := Some "Gum";
             amount := Some 0%float; category := Some FOOD |}
  /\ (0 <? 0)%float = false
  /\ ExpenseService.all_fields
       {| is_expense := true; description := Some "Gum";
          amount := Some 0%float; category := Some FOOD |} = false.
Proof.
  repeat split; vm_compute; reflexivity.
Qed.

End Amounts.

Lemma nonpositive_amount_is_rejected_witness :
  exists fields,
    @extract_expense_body fixture_runtime (fun _ _ => Ok refund_json) 0 "refund 5"
    = Err (ValidationError "ExpenseExtraction" fields).
Proof.
  exact (proj2 (@nonpositive_amount_is_rejected fixture_runtime refund_kwargs (PInt (-5))
                  eq_refl (or_introl eq_refl))
           (fun _ _ => Ok refund_json) 0%nat "refund 5" _ eq_refl eq_refl).
Defined.

(** *** Provider selection and client construction *)

Lemma find_from_range (sub s : string) (i : Z) :
  find_from sub s i = -1 \/ i <= find_from sub s i.
Proof.
  revert i. induction s as [|a s IH]; intro i; cbn [find_from].
  - destruct (prefix sub ""); [right; lia | left; reflexivity].
  - destruct (prefix sub (String a s)); [right; lia|].
    destruct (IH (i + 1)) as [H|H]; [left; exact H | right; lia].
Qed.

Lemma prefix_lower (sub s : string) :
  lower sub = sub -> prefix sub s = true -> prefix sub (lower s) = true.
Proof.
  revert s. induction sub as [|a sub IH]; intros s Hlow Hp.
  - destruct s; reflexivity.
  - destruct s as [|b s]; [discriminate|].
    cbn [lower] in Hlow. injection Hlow as Ha Hsub.
    cbn [prefix lower] in *.
    destruct (ascii_dec a b) as [<-|Hne]; [|discriminate].
    rewrite Ha. destruct (ascii_dec a a) as [_|Hne]; [|contradiction].
    apply IH; assumption.
Qed.

Lemma find_from_lower (sub s : string) (i : Z) :
  lower sub = sub -> 0 <= i ->
  find_from sub s i <> -1 -> find_from sub (lower s) i <> -1.
Proof.
  intro Hlow. revert i. induction s as [|a s IH]; intros i Hi H.
  - exact H.
  - cbn [find_from lower] in *.
    destruct (prefix sub (String a s)) eqn:E.
    + change (String (lower_ascii a) (lower s)) with (lower (String a s)).
      rewrite (prefix_lower _ _ Hlow E). lia.
    + destruct (prefix sub (String (lower_ascii a) (lower s))); [lia|].
      apply IH; [lia | exact H].
Qed.

(** A name that contains a lower-case word still contains it once
    lower-cased. *)
Lemma contains_lower (sub s : string) :
  lower sub = sub -> contains sub s = true -> contains sub (lower s) = true.
Proof.
  unfold contains, find. intros Hlow H.
  apply negb_true_iff, Z.eqb_neq in H.
  apply negb_true_iff, Z.eqb_neq.
  apply find_from_lower; [exact Hlow | lia | exact H].
Qed.

Lemma get_llm_provider_range (s : Settings) :
  get_llm_provider s = "openai" \/ get_llm_provider s = "anthropic".
Proof.
  unfold get_llm_provider.
  destruct (contains "gpt" _); [left; reflexivity|].
  destruct (contains "claude" _); [right | left]; reflexivity.
Qed.

(** C10.  [get_llm_provider] returns "openai" or "anthropic" and nothing
    else, so [_initialize_llm] never takes its last branch: it never raises
    "Unsupported LLM provider", and when it raises, it is for the missing
    key of the provider it selected. *)
Theorem unsupported_provider_is_unreachable (s : Settings) :
  (get_llm_provider s = "openai" \/ get_llm_provider s = "anthropic")
  /\ (forall provider : string,
        _initialize_llm s <> Err (ValueError ("Unsupported LLM provider: " ++ provider)))
  /\ (forall e : exn,
        _initialize_llm s = Err e ->
        (get_llm_provider s = "openai"
         /\ opt_str_truthy (openai_api_key s) = false
         /\ e = ValueError "OpenAI API key is required but not configured")
        \/ (get_llm_provider s = "anthropic"
            /\ opt_str_truthy (anthropic_api_key s) = false
            /\ e = ValueError "Anthropic API key is required but not configured")).
Proof.
  split; [apply get_llm_provider_range|].
  assert (Herr : forall e : exn,
        _initialize_llm s = Err e ->
        (get_llm_provider s = "openai"
         /\ opt_str_truthy (openai_api_key s) = false
         /\ e = ValueError "OpenAI API key is required but not configured")
        \/ (get_llm_provider s = "anthropic"
            /\ opt_str_truthy (anthropic_api_key s) = false
            /\ e = ValueError "Anthropic API key is required but not configured")).
  { intros e He. unfold _initialize_llm in He.
    destruct (get_llm_provider_range s) as [Hp|Hp]; rewrite Hp in He |- *;
      cbn [String.eqb Ascii.eqb Bool.eqb] in He.
    - left. destruct (opt_str_truthy (openai_api_key s)); cbn [negb] in He;
        [discriminate|]. injection He as <-. repeat split.
    - right. destruct (opt_str_truthy (anthropic_api_key s)); cbn [negb] in He;
        [discriminate|]. injection He as <-. repeat split. }
  split; [|exact Herr].
  intros provider He.
  destruct (Herr _ He) as [(_ & _ & Hv)|(_ & _ & Hv)]; discriminate Hv.
Qed.

Lemma unsupported_provider_is_unreachable_witness :
  get_llm_provider (settings_for "mistral-7b" None None) = "openai"
  /\ opt_str_truthy (openai_api_key (settings_for "mistral-7b" None None)) = false.
Proof.
  destruct (proj2 (proj2 (unsupported_provider_is_unreachable
                            (settings_for "mistral-7b" None None)))
              (ValueError "OpenAI API key is required but not configured") eq_refl)
    as [(Hprovider & Hkey & _)|(Hprovider & _)].
  - split; [exact Hprovider | exact Hkey].
  - discriminate Hprovider.
Defined.

(** C8, amended.  The provider is chosen on the lower-cased model name,
    "gpt" being looked for first: a name containing "gpt" (in any letter
    case) selects openai; otherwise a name containing "claude" in any
    letter case selects anthropic; any other name selects openai.  When
    the key of the selected provider is [None] or empty, constructing the
    service raises, so no service exists on which a call could be made;
    when it is there, the service is built with the client of that
    provider. *)
Theorem provider_selection_and_credentials (s : Settings) :
  (contains "gpt" (llm_model s) = true -> get_llm_provider s = "openai")
  /\ (contains "gpt" (lower (llm_model s)) = true -> get_llm_provider s = "openai")
  /\ (contains "gpt" (lower (llm_model s)) = false ->
      contains "claude" (lower (llm_model s)) = true ->
      get_llm_provider s = "anthropic")
  /\ (contains "gpt" (lower (llm_model s)) = false ->
      contains "claude" (lower (llm_model s)) = false ->
      get_llm_provider s = "openai")
  /\ (get_llm_provider s = "openai" ->
      opt_str_truthy (openai_api_key s) = false ->
      __init__ s = Err (ValueError "OpenAI API key is required but not configured"))
  /\ (get_llm_provider s = "anthropic" ->
      opt_str_truthy (anthropic_api_key s) = false ->
      __init__ s = Err (ValueError "Anthropic API key is required but not configured"))
  /\ (get_llm_provider s = "openai" ->
      opt_str_truthy (openai_api_key s) = true ->
      __init__ s = Ok {| settings := s;
                         llm := ChatOpenAI (llm_model s) (openai_api_key s) 0 |})
  /\ (get_llm_provider s = "anthropic" ->
      opt_str_truthy (anthropic_api_key s) = true ->
      __init__ s = Ok {| settings := s;
                         llm := ChatAnthropic (llm_model s) (anthropic_api_key s) 0 |}).
Proof.
  assert (Hgpt : contains "gpt" (lower (llm_model s)) = true ->
                 get_llm_provider s = "openai").
  { intro H. unfold get_llm_provider. rewrite H. reflexivity. }
  split; [intro H; apply Hgpt, contains_lower; [reflexivity | exact H]|].
  split; [exact Hgpt|].
  split; [intros H1 H2; unfold get_llm_provider; rewrite H1, H2; reflexivity|].
  split; [intros H1 H2; unfold get_llm_provider; rewrite H1, H2; reflexivity|].
  repeat split; intros Hp Hk; unfold __init__, _initialize_llm;
    rewrite Hp; cbn [String.eqb Ascii.eqb Bool.eqb]; rewrite Hk; reflexivity.
Qed.

Lemma provider_selection_and_credentials_witness :
  get_llm_provider (settings_for "Claude-3-Sonnet" (Some "sk-test") None) = "anthropic"
  /\ __init__ (settings_for "Claude-3-Sonnet" (Some "sk-test") None)
     = Err (ValueError "Anthropic API key is required but not configured").
Proof.
  pose proof (provider_selection_and_credentials
                (settings_for "Claude-3-Sonnet" (Some "sk-test") None)) as H.
  destruct H as (_ & _ & Hclaude & _ & _ & Hkey & _).
  split.
  - exact (Hclaude eq_refl eq_refl).
  - exact (Hkey (Hclaude eq_refl eq_refl) eq_refl).
Defined.

(** C8 as worded fails on the code: a name with both words selects openai
    although it contains "claude", and a capitalised "Claude" selects
    anthropic although the name contains neither word as written. *)
Lemma provider_selection_counterexample :
  ~ selection_as_worded (settings_for "claude-gpt-bridge" None None)
  /\ ~ selection_as_worded (settings_for "Claude-3-Sonnet" None None)
  /\ get_llm_provider (settings_for "claude-gpt-bridge" None None) = "openai"
  /\ get_llm_provider (settings_for "Claude-3-Sonnet" None None) = "anthropic".
Proof.
  split; [|split; [|split; reflexivity]].
  - intros (_ & H & _). specialize (H eq_refl). discriminate H.
  - intros (_ & _ & H). specialize (H eq_refl eq_refl). discriminate H.
Qed.

(** A service that could be constructed reports itself configured. *)
Lemma constructed_is_configured (s : Settings) (svc : LLMService) :
  __init__ s = Ok svc -> is_configured svc = true.
Proof.
  unfold __init__, _initialize_llm, is_configured, res_bind.
  destruct (get_llm_provider_range s) as [Hp|Hp]; rewrite Hp;
    cbn [String.eqb Ascii.eqb Bool.eqb].
  - destruct (opt_str_truthy (openai_api_key s)) eqn:Hk; cbn [negb]; [|discriminate].
    intro H. injection H as <-. cbn [settings]. rewrite Hp.
    cbn [String.eqb Ascii.eqb Bool.eqb]. exact Hk.
  - destruct (opt_str_truthy (anthropic_api_key s)) eqn:Hk; cbn [negb]; [|discriminate].
    intro H. injection H as <-. cbn [settings]. rewrite Hp.
    cbn [String.eqb Ascii.eqb Bool.eqb]. exact Hk.
Qed.

(** *** The retry envelope *)

Lemma wait_exponential_bounds (attempt_number : nat) :
  2 <= wait_exponential 1 2 10 attempt_number <= 10.
Proof.
  unfold wait_exponential. lia.
Qed.

Lemma attempts_cons_attempt (n : nat) (trace : list event) :
  attempts (Attempt n :: trace) = S (attempts trace).
Proof. reflexivity. Qed.

Lemma attempts_cons_sleep (d : Z) (trace : list event) :
  attempts (Sleep d :: trace) = attempts trace.
Proof. reflexivity. Qed.

(** The loop stops: with [stop_after_attempt m], started at attempt [n],
    [m - n + 1] iterations are enough, it makes at most that many attempts,
    and every pause is one the wait strategy gave. *)
Lemma retrying_terminates {A} (wait : nat -> Z) (fn : nat -> res A) (m : nat) :
  forall fuel n : nat,
    (m - n < fuel)%nat ->
    exists r trace,
      retrying fuel (stop_after_attempt m) wait fn n = Some (r, trace)
      /\ (attempts trace <= S (m - n))%nat
      /\ Forall (fun d => exists k : nat, d = wait k) (sleeps trace).
Proof.
  induction fuel as [|fuel IH]; intros n Hfuel; [lia|].
  cbn [retrying].
  destruct (fn n) as [v|e].
  - exists (Ok v), [Attempt n]. repeat split.
    + rewrite attempts_cons_attempt. cbn. lia.
    + constructor.
  - unfold stop_after_attempt at 1.
    destruct (Nat.leb_spec m n) as [Hstop|Hgo].
    + exists (Err e), [Attempt n]. repeat split.
      * rewrite attempts_cons_attempt. cbn. lia.
      * constructor.
    + destruct (IH (S n) ltac:(lia)) as (r & trace & Hrun & Hcount & Hsleeps).
      rewrite Hrun.
      exists r, (Attempt n :: Sleep (wait n) :: trace). repeat split.
      * rewrite attempts_cons_attempt, attempts_cons_sleep. lia.
      * cbn [sleeps flat_map app]. constructor; [exists n; reflexivity|].
        exact Hsleeps.
Qed.

(** A run of the loop that returned made [k] failed attempts on which the
    stop condition said no, then one attempt whose result it returned; an
    error is returned only when the stop condition said yes.  The trace
    shows [k + 1] attempts and the [k] pauses of the wait strategy. *)
Lemma retrying_shape {A} (stop : nat -> bool) (wait : nat -> Z) (fn : nat -> res A) :
  forall (fuel n : nat) (r : res A) (trace : list event),
    retrying fuel stop wait fn n = Some (r, trace) ->
    exists k : nat,
      (forall j, (j < k)%nat -> (exists e, fn (n + j)%nat = Err e) /\ stop (n + j)%nat = false)
      /\ fn (n + k)%nat = r
      /\ (forall e, r = Err e -> stop (n + k)%nat = true)
      /\ attempts trace = S k
      /\ sleeps trace = map wait (seq n k).
Proof.
  induction fuel as [|fuel IH]; intros n r trace Hrun; [discriminate|].
  cbn [retrying] in Hrun.
  destruct (fn n) as [v|e] eqn:Hfn.
  - injection Hrun as <- <-. exists 0%nat.
    rewrite Nat.add_0_r. repeat split; try (intros; lia || discriminate || assumption).
  - destruct (stop n) eqn:Hstop.
    + injection Hrun as <- <-. exists 0%nat.
      rewrite Nat.add_0_r. repeat split; try (intros; lia || assumption).
    + destruct (retrying fuel stop wait fn (S n)) as [[r' trace']|] eqn:Hrec;
        [|discriminate].
      injection Hrun as <- <-.
      destruct (IH (S n) r' trace' Hrec) as (k & Hfail & Hlast & Herr & Hcount & Hsleeps).
      exists (S k).
      replace (n + S k)%nat with (S n + k)%nat by lia.
      split; [|split; [exact Hlast|split; [exact Herr|split]]].
      * intros j Hj. destruct j as [|j].
        -- rewrite Nat.add_0_r. split; [exists e; exact Hfn | exact Hstop].
        -- replace (n + S j)%nat with (S n + j)%nat by lia. apply Hfail. lia.
      * rewrite attempts_cons_attempt, attempts_cons_sleep, Hcount. reflexivity.
      * cbn [sleeps flat_map app seq map]. f_equal. exact Hsleeps.
Qed.

(** The wait strategy of [extract_expense]: the pauses after attempts 1 to
    5, the cap from there on, and the doubling that sets in with the
    second pause. *)
Lemma wait_exponential_table :
  map (wait_exponential 1 2 10) [1; 2; 3; 4; 5]%nat = [2; 2; 4; 8; 10].
Proof. reflexivity. Qed.

Lemma wait_exponential_capped (attempt_number : nat) :
  (5 <= attempt_number)%nat -> wait_exponential 1 2 10 attempt_number = 10.
Proof.
  intro H. unfold wait_exponential.
  assert (Hpow : 2 ^ 4 <= 2 ^ (Z.of_nat attempt_number - 1))
    by (apply Z.pow_le_mono_r; lia).
  change (2 ^ 4) with 16 in Hpow. lia.
Qed.

Lemma wait_exponential_monotone (attempt_number : nat) :
  wait_exponential 1 2 10 attempt_number <= wait_exponential 1 2 10 (S attempt_number).
Proof.
  unfold wait_exponential.
  assert (Hpow : 2 ^ (Z.of_nat attempt_number - 1) <= 2 ^ (Z.of_nat (S attempt_number) - 1))
    by (apply Z.pow_le_mono_r; lia).
  lia.
Qed.

(** From the second pause on the strategy is the worded one, one attempt
    late. *)
Lemma wait_exponential_shifted (attempt_number : nat) :
  (1 <= attempt_number)%nat ->
  wait_exponential 1 2 10 (S attempt_number) = backoff_as_worded attempt_number.
Proof.
  intro H. unfold wait_exponential, backoff_as_worded.
  replace (Z.of_nat (S attempt_number) - 1) with (Z.succ (Z.of_nat attempt_number - 1))
    by lia.
  rewrite Z.pow_succ_r by lia.
  assert (Hpos : 0 < 2 ^ (Z.of_nat attempt_number - 1))
    by (apply Z.pow_pos_nonneg; lia).
  lia.
Qed.

(** The pauses of a run under [stop_after_attempt 3] and
    [wait_exponential 1 2 10]: one of 2 after each attempt but the last. *)
Lemma pauses_of_three_attempts {A} (fn : nat -> res A) (fuel : nat) (r : res A)
    (trace : list event) :
  retrying fuel (stop_after_attempt 3) (wait_exponential 1 2 10) fn 1 = Some (r, trace) ->
  sleeps trace = repeat 2 (Nat.pred (attempts trace)).
Proof.
  intro Hrun.
  destruct (retrying_shape _ _ _ _ _ _ _ Hrun) as (k & Hfail & _ & _ & Hcount & Hsleeps).
  rewrite Hcount, Hsleeps. cbn [Nat.pred].
  destruct k as [|[|[|k]]]; try reflexivity.
  destruct (Hfail 2%nat ltac:(lia)) as [_ Hstop]. discriminate Hstop.
Qed.

(** More fuel than needed changes nothing. *)
Lemma retrying_fuel_irrelevant {A} (stop : nat -> bool) (wait : nat -> Z)
    (fn : nat -> res A) :
  forall (fuel fuel' n : nat) (out : res A * list event),
    retrying fuel stop wait fn n = Some out ->
    (fuel <= fuel')%nat ->
    retrying fuel' stop wait fn n = Some out.
Proof.
  induction fuel as [|fuel IH]; intros fuel' n out Hrun Hle; [discriminate|].
  destruct fuel' as [|fuel']; [lia|].
  cbn [retrying] in *.
  destruct (fn n) as [v|e]; [exact Hrun|].
  destruct (stop n); [exact Hrun|].
  destruct (retrying fuel stop wait fn (S n)) as [[r trace]|] eqn:E; [|discriminate].
  rewrite (IH fuel' (S n) (r, trace) E ltac:(lia)). exact Hrun.
Qed.

Section Retry.

Context {rt : Runtime}.

Lemma extract_expense_body_ext (chain chain' : Chain) (call : nat) (message : string) :
  chain' call message = chain call message ->
  extract_expense_body chain' call message = extract_expense_body chain call message.
Proof.
  intro H. unfold extract_expense_body. rewrite H. reflexivity.
Qed.

(** C4.  [extract_expense] makes at most three attempts of the
    call-parse-validate step.  Given fuel for three iterations the loop
    always returns.  The pause after attempt [n] is
    [max(2, min(10, 2 ** (n - 1)))]: 2, 2, 4, 8, and 10 from the fifth
    attempt on; it never shrinks, it stays between 2 and 10, and from the
    second pause on it is the exponential backoff from 2 capped at 10, one
    attempt late.  A run makes at most two pauses, so every pause it makes
    is 2: the growth never shows.  When the first two attempts fail and
    the third succeeds, the result of the third is returned; when all
    three fail, the error of the third is re-raised; in both cases three
    attempts were made and no fourth, and what the chain would answer to a
    fourth call has no influence on the outcome. *)
Theorem extract_expense_retry_bound (fuel : nat) (chain : Chain) (message : string)
    (Hfuel : (3 <= fuel)%nat) :
  (exists r trace,
     extract_expense fuel chain message = Some (r, trace)
     /\ (attempts trace <= 3)%nat
     /\ Forall (fun d => 2 <= d <= 10) (sleeps trace)
     /\ sleeps trace = repeat 2 (Nat.pred (attempts trace)))
  /\ (forall (e1 e2 : exn) (v : ExpenseExtraction),
        extract_expense_body chain 0 message = Err e1 ->
        extract_expense_body chain 1 message = Err e2 ->
        extract_expense_body chain 2 message = Ok v ->
        extract_expense fuel chain message
        = Some (Ok v, [Attempt 1; Sleep 2; Attempt 2; Sleep 2; Attempt 3]))
  /\ (forall e1 e2 e3 : exn,
        extract_expense_body chain 0 message = Err e1 ->
        extract_expense_body chain 1 message = Err e2 ->
        extract_expense_body chain 2 message = Err e3 ->
        extract_expense fuel chain message
        = Some (Err e3, [Attempt 1; Sleep 2; Attempt 2; Sleep 2; Attempt 3]))
  /\ (forall chain' : Chain,
        (forall call : nat, (call < 3)%nat -> chain' call message = chain call message) ->
        extract_expense fuel chain' message = extract_expense fuel chain message)
  /\ wait_exponential 1 2 10 1 = 2
  /\ (forall attempt_number : nat, 2 <= wait_exponential 1 2 10 attempt_number <= 10)
  /\ map (wait_exponential 1 2 10) [1; 2; 3; 4; 5]%nat = [2; 2; 4; 8; 10]
  /\ (forall attempt_number : nat,
        (5 <= attempt_number)%nat -> wait_exponential 1 2 10 attempt_number = 10)
  /\ (forall attempt_number : nat,
        wait_exponential 1 2 10 attempt_number
        <= wait_exponential 1 2 10 (S attempt_number))
  /\ (forall attempt_number : nat,
        (1 <= attempt_number)%nat ->
        wait_exponential 1 2 10 (S attempt_number) = backoff_as_worded attempt_number).
Proof.
  split.
  { destruct (retrying_terminates (wait_exponential 1 2 10)
                (fun attempt_number =>
                   extract_expense_body chain (Nat.pred attempt_number) message)
                3 fuel 1 ltac:(lia)) as (r & trace & Hrun & Hcount & Hsleeps).
    exists r, trace. split; [exact Hrun|]. split; [exact Hcount|]. split.
    - eapply Forall_impl; [|exact Hsleeps].
      intros d [k ->]. apply wait_exponential_bounds.
    - exact (pauses_of_three_attempts _ _ _ _ Hrun). }
  destruct fuel as [|[|[|fuel]]]; try lia.
  split; [|split; [|split; [|split; [reflexivity|split; [exact wait_exponential_bounds|]]]]].
  - intros e1 e2 v H1 H2 H3. unfold extract_expense.
    cbn [retrying Nat.pred stop_after_attempt Nat.leb].
    rewrite H1, H2, H3. reflexivity.
  - intros e1 e2 e3 H1 H2 H3. unfold extract_expense.
    cbn [retrying Nat.pred stop_after_attempt Nat.leb].
    rewrite H1, H2, H3. reflexivity.
  - intros chain' Hsame. unfold extract_expense.
    cbn [retrying Nat.pred stop_after_attempt Nat.leb].
    rewrite !(extract_expense_body_ext chain chain') by (apply Hsame; lia).
    reflexivity.
  - split; [exact wait_exponential_table|].
    split; [exact wait_exponential_capped|].
    split; [exact wait_exponential_monotone | exact wait_exponential_shifted].
Qed.

(** Awaiting [extract_expense] always gives the caller a value or an
    exception of the last attempt: the loop has returned. *)
Lemma awaited_returns (chain : Chain) (message : string) :
  exists trace, extract_expense 3 chain message = Some (awaited chain message, trace).
Proof.
  destruct (retrying_terminates (wait_exponential 1 2 10)
              (fun attempt_number =>
                 extract_expense_body chain (Nat.pred attempt_number) message)
              3 3 1 ltac:(lia)) as (r & trace & Hrun & _).
  exists trace. unfold awaited, extract_expense. rewrite Hrun. reflexivity.
Qed.

End Retry.

Lemma extract_expense_retry_bound_witness :
  @extract_expense fixture_runtime 3 flaky_chain "Pizza 20 reais"
  = Some (Ok pizza, [Attempt 1; Sleep 2; Attempt 2; Sleep 2; Attempt 3])
  /\ @extract_expense fixture_runtime 3 dead_chain "Pizza 20 reais"
     = Some (Err (ProviderError "503 (third)"),
             [Attempt 1; Sleep 2; Attempt 2; Sleep 2; Attempt 3]).
Proof.
  pose proof (@extract_expense_retry_bound fixture_runtime 3 flaky_chain
                "Pizza 20 reais" (le_n 3)) as (_ & Hflaky & _).
  pose proof (@extract_expense_retry_bound fixture_runtime 3 dead_chain
                "Pizza 20 reais" (le_n 3)) as (_ & _ & Hdead & _).
  split.
  - apply (Hflaky (ProviderError "timeout") (ValueError "No JSON found in response") pizza);
      vm_compute; reflexivity.
  - apply (Hdead (ProviderError "503 (first)") (ProviderError "503 (second)")
             (ProviderError "503 (third)")); reflexivity.
Defined.

(** Read word for word, the two pauses of a run of three attempts would be
    2 and 4.  The run pauses for 2 and 2: the second pause is not twice
    the first. *)
Lemma extract_expense_backoff_counterexample :
  @extract_expense fixture_runtime 3 dead_chain "Pizza 20 reais"
  = Some (Err (ProviderError "503 (third)"),
          [Attempt 1; Sleep 2; Attempt 2; Sleep 2; Attempt 3])
  /\ sleeps [Attempt 1; Sleep 2; Attempt 2; Sleep 2; Attempt 3] = [2; 2]
  /\ map backoff_as_worded [1; 2]%nat = [2; 4]
  /\ wait_exponential 1 2 10 2 <> backoff_as_worded 2.
Proof.
  split; [reflexivity|]. split; [reflexivity|]. split; [reflexivity|].
  vm_compute. discriminate.
Qed.

(** *** The decision logic *)

Section Decision.

Import ExpenseService.

Context {S : Type} {db : Models.Session S}.

Variable extract : string -> res ExpenseExtraction.

(** [create_expense] raises exactly when [add], [commit] or [refresh]
    does, with that exception. *)
Lemma create_expense_raises (ec : ExpenseCreate) (s s1 : S) (x : exn) :
  let expense :=
    {| Models.id := None;
       Models.user_id := ec_user_id ec;
       Models.description := ec_description ec;
       Models.amount := ec_amount ec;
       Models.category := value (ec_category ec) |} in
  create_expense ec s = (Err x, s1) <->
  Models.add expense s = (Err x, s1)
  \/ (exists s2, Models.add expense s = (Ok tt, s2) /\ Models.commit s2 = (Err x, s1))
  \/ (exists s2 s3,
        Models.add expense s = (Ok tt, s2) /\ Models.commit s2 = (Ok tt, s3)
        /\ Models.refresh expense s3 = (Err x, s1)).
Proof.
  intro expense. unfold create_expense, bind, ret. fold expense.
  destruct (Models.add expense s) as [[[]|x1] s2] eqn:Hadd.
  - destruct (Models.commit s2) as [[[]|x2] s3] eqn:Hcommit.
    + destruct (Models.refresh expense s3) as [[row|x3] s4] eqn:Hrefresh.
      * split; [discriminate|].
        intros [H|[(t2 & H & H')|(t2 & t3 & H & H' & H'')]]; try congruence.
      * split.
        -- intro H. right. right. exists s2, s3. repeat split; congruence.
        -- intros [H|[(t2 & H & H')|(t2 & t3 & H & H' & H'')]]; congruence.
    + split.
      * intro H. right. left. exists s2. split; congruence.
      * intros [H|[(t2 & H & H')|(t2 & t3 & H & H' & H'')]]; congruence.
  - split.
    + intro H. left. congruence.
    + intros [H|[(t2 & H & H')|(t2 & t3 & H & H' & H'')]]; congruence.
Qed.

(** C1.  [process_message] returns a response for every user id, message,
    extraction behaviour and store behaviour: it never raises.  When the
    extraction raises (its retries exhausted), the response is the generic
    error and the store is not touched; when the store raises while the
    expense is created, the response is again the generic error, never a
    success; the generic error has [success = false], a message and no
    expense id, and so has every response with [success = false]. *)
Theorem process_message_never_raises (user_id : Z) (text : string) (s : S) :
  exists (o : ExpenseResponse) (s' : S),
    process_message extract user_id text s = (Ok o, s')
    /\ (forall x : exn, extract text = Err x -> o = error_processing /\ s' = s)
    /\ (forall e d a c ec x s1,
          extract text = Ok e ->
          is_expense e = true -> all_fields e = true ->
          description e = Some d -> amount e = Some a -> category e = Some c ->
          ExpenseCreate_new user_id d (Decimal_of_str_float a) c = Ok ec ->
          create_expense ec s = (Err x, s1) ->
          o = error_processing /\ s' = s1)
    /\ (success o = false -> expense_id o = None /\ message o <> "")
    /\ (success error_processing = false
        /\ expense_id error_processing = None
        /\ contains "error processing your expense" (message error_processing) = true).
Proof.
  unfold process_message, try_except, bind, lift.
  destruct (extract text) as [e|x0] eqn:Hex; [|answered_with error_processing s].
  destruct (is_expense e) eqn:Hie; cbn [negb]; [|answered_with not_an_expense s].
  destruct (all_fields e) eqn:Hall; cbn [negb]; [|answered_with incomplete s].
  destruct (description e) as [d|] eqn:Hd; cbn [raise];
    [|answered_with error_processing s].
  destruct (amount e) as [a|] eqn:Ha; cbn [raise];
    [|answered_with error_processing s].
  destruct (category e) as [c|] eqn:Hc; cbn [raise];
    [|answered_with error_processing s].
  destruct (ExpenseCreate_new user_id d (Decimal_of_str_float a) c) as [ec|x1] eqn:Hec;
    [|answered_with error_processing s].
  destruct (create_expense ec s) as [[expense|x2] s2] eqn:Hce.
  - exists (added c (Models.id expense)), s2. split; [reflexivity|].
    split; [intros; congruence|]. split; [intros; congruence|].
    split; [cbn [success added]; discriminate | repeat split].
  - exists error_processing, s2. split; [reflexivity|].
    split; [intros; congruence|].
    split; [|split; [intros _; split; [reflexivity | discriminate] | repeat split]].
    intros e' d' a' c' ec' x s1 He' _ _ Hd' Ha' Hc' Hec' Hce'.
    assert (Ee : e' = e) by congruence. subst e'.
    assert (Ed : d' = d) by congruence.
    assert (Ec : c' = c) by congruence.
    assert (Ea : Decimal_of_str_float a' = Decimal_of_str_float a).
    { rewrite Ha in Ha'. clear - Ha'.
      change (match Some a' with Some v => Decimal_of_str_float v | None => DecNaN end
              = Decimal_of_str_float a).
      rewrite <- Ha'. reflexivity. }
    subst d' c'. rewrite Ea, Hec in Hec'.
    assert (Eec : ec' = ec) by congruence. subst ec'.
    rewrite Hce in Hce'. split; [reflexivity|]. congruence.
Qed.

(** C3.  When the extraction reports [is_expense = false], the response is
    the "doesn't look like an expense" one, with [success = false] and no
    expense id, and the store is left as it was: nothing is added and
    nothing committed. *)
Theorem non_expense_is_declined (user_id : Z) (text : string) (s : S)
    (e : ExpenseExtraction)
    (Hextract : extract text = Ok e) (Hno : is_expense e = false) :
  process_message extract user_id text s = (Ok not_an_expense, s)
  /\ success not_an_expense = false
  /\ contains "doesn't look like an expense" (message not_an_expense) = true
  /\ expense_id not_an_expense = None.
Proof.
  split; [|repeat split; vm_compute; reflexivity].
  unfold process_message, try_except, bind, lift.
  rewrite Hextract, Hno. reflexivity.
Qed.

End Decision.

(** *** Persisting a complete extraction *)

Lemma positive_float_truthy (a : float) :
  (0 <? a)%float = true -> float_truthy a = true.
Proof.
  unfold float_truthy. rewrite ltb_spec, eqb_spec.
  change (Prim2SF 0) with (S754_zero false).
  destruct (Prim2SF a) as [sa|sa| |sa m e]; try destruct sa;
    cbn; intro H; (discriminate H || reflexivity).
Qed.

Lemma py_len_nonempty (d : string) : 1 <= py_len d -> str_truthy d = true.
Proof.
  destruct d; cbn [py_len str_truthy]; [lia | reflexivity].
Qed.

Lemma value_nonempty (c : ExpenseCategory) : str_truthy (value c) = true.
Proof. destruct c; reflexivity. Qed.

Lemma Decimal_eqb_refl (d : Decimal) : Models.Decimal_eqb d d = true.
Proof.
  destruct d as [sg co ex|sg|]; cbn [Models.Decimal_eqb];
    rewrite ?Bool.eqb_reflx, ?N.eqb_refl, ?Z.eqb_refl; reflexivity.
Qed.

Lemma row_of_same_fields (i j : option Z) (u : Z) (d : string) (a : Decimal)
    (c : string) :
  Models.row_of
    {| Models.id := i; Models.user_id := u; Models.description := d;
       Models.amount := a; Models.category := c |}
    {| Models.id := j; Models.user_id := u; Models.description := d;
       Models.amount := a; Models.category := c |}
  = true.
Proof.
  unfold Models.row_of. cbn.
  rewrite Z.eqb_refl, !String.eqb_refl, Decimal_eqb_refl. reflexivity.
Qed.

(** On a healthy store without pending objects, [create_expense] appends
    one row, with the next primary key, and returns it. *)
Lemma create_expense_appends (ec : ExpenseCreate) (db0 : Models.Db) :
  Models.pending db0 = [] ->
  let row :=
    {| Models.id := Some (Models.next_id db0);
       Models.user_id := ec_user_id ec;
       Models.description := ec_description ec;
       Models.amount := ec_amount ec;
       Models.category := value (ec_category ec) |} in
  @ExpenseService.create_expense _ (Models.MemSession Models.healthy) ec db0
  = (Ok row,
     {| Models.table := Models.table db0 ++ [row];
        Models.pending := [];
        Models.next_id := Models.next_id db0 + 1 |}).
Proof.
  intros Hpending row.
  unfold ExpenseService.create_expense, bind, ret.
  cbn [Models.add Models.commit Models.refresh Models.MemSession
       Models.mem_add Models.mem_commit Models.mem_refresh
       Models.healthy Models.add_fault Models.commit_fault Models.refresh_fault
       Models.table Models.pending Models.next_id].
  rewrite Hpending. cbn [app Models.assign_ids List.length Z.of_nat Pos.of_succ_nat].
  cbn [Models.id Models.user_id Models.description Models.amount Models.category].
  rewrite rev_unit. cbn [List.find]. rewrite row_of_same_fields.
  reflexivity.
Qed.

(** C2, amended.  An extraction with [is_expense = true], a description of
    1 to 500 characters, an amount above zero whose decimal form
    [Decimal(str(amount))] is finite with at most two decimal places, and a
    category, processed for a positive user id over a healthy store that
    holds no pending object, persists exactly one row: the table grows by
    one expense that carries the description, the extracted amount as that
    decimal (already rounded when the extraction was built, and not rounded
    again), the value of the category and the next primary key; the
    response has [success = true], the message of that category and the id
    of the new row. *)
Theorem complete_expense_is_persisted
    (extract : string -> res ExpenseExtraction)
    (user_id : Z) (text : string) (db0 : Models.Db)
    (e : ExpenseExtraction) (d : string) (a : float) (c : ExpenseCategory)
    (Hextract : extract text = Ok e)
    (Hexpense : is_expense e = true)
    (Hd : description e = Some d) (Hlen : 1 <= py_len d <= 500)
    (Ha : amount e = Some a) (Hpos : (0 <? a)%float = true)
    (Hdec : amount_ok (Decimal_of_str_float a) = true)
    (Hc : category e = Some c)
    (Huser : 0 < user_id)
    (Hpending : Models.pending db0 = []) :
  let row :=
    {| Models.id := Some (Models.next_id db0);
       Models.user_id := user_id;
       Models.description := d;
       Models.amount := Decimal_of_str_float a;
       Models.category := value c |} in
  @ExpenseService.process_message _ (Models.MemSession Models.healthy)
     extract user_id text db0
  = (Ok (ExpenseService.added c (Some (Models.next_id db0))),
     {| Models.table := Models.table db0 ++ [row];
        Models.pending := [];
        Models.next_id := Models.next_id db0 + 1 |})
  /\ success (ExpenseService.added c (Some (Models.next_id db0))) = true
  /\ contains (value c) (message (ExpenseService.added c (Some (Models.next_id db0)))) = true.
Proof.
  intro row. split; [|split; [reflexivity | destruct c; vm_compute; reflexivity]].
  unfold ExpenseService.process_message, try_except, bind at 1, lift at 1.
  rewrite Hextract, Hexpense. cbn [negb].
  assert (Hall : ExpenseService.all_fields e = true).
  { unfold ExpenseService.all_fields. rewrite Hd, Ha, Hc.
    rewrite (py_len_nonempty d (proj1 Hlen)), (positive_float_truthy a Hpos),
      value_nonempty. reflexivity. }
  rewrite Hall, Hd, Ha, Hc. cbn [negb].
  assert (Hcreate : ExpenseCreate_new user_id d (Decimal_of_str_float a) c
                    = Ok {| ec_user_id := user_id; ec_description := d;
                            ec_amount := Decimal_of_str_float a; ec_category := c |}).
  { unfold ExpenseCreate_new. rewrite Hdec.
    destruct (Z.ltb_spec 0 user_id); [|lia].
    destruct (Z.leb_spec 1 (py_len d)); [|lia].
    destruct (Z.leb_spec (py_len d) 500); [|lia].
    reflexivity. }
  unfold bind at 1, lift. rewrite Hcreate.
  unfold bind. rewrite (create_expense_appends _ db0 Hpending).
  reflexivity.
Qed.

Lemma complete_expense_is_persisted_witness :
  @ExpenseService.process_message _ (Models.MemSession Models.healthy)
     (fun _ => Ok pizza) 7 "Pizza 20 reais" empty_db
  = (Ok (ExpenseService.added FOOD (Some 1)),
     {| Models.table :=
          [{| Models.id := Some 1; Models.user_id := 7;
              Models.description := "Pizza";
              Models.amount := DecFinite false 200 (-1);
              Models.category := "Food" |}];
        Models.pending := [];
        Models.next_id := 2 |}).
Proof.
  assert (Hdec : Decimal_of_str_float 20 = DecFinite false 200 (-1))
    by (vm_compute; reflexivity).
  pose proof (complete_expense_is_persisted (fun _ => Ok pizza) 7 "Pizza 20 reais"
                empty_db pizza "Pizza" 20%float FOOD eq_refl eq_refl eq_refl
                ltac:(vm_compute; split; discriminate) eq_refl
                ltac:(vm_compute; reflexivity) ltac:(vm_compute; reflexivity)
                eq_refl eq_refl eq_refl) as H.
  cbv zeta in H. rewrite Hdec in H. exact (proj1 H).
Defined.

(** C2 as worded fails on the code: an extraction with [is_expense = true]
    and a complete triple (a description, the amount 20.0, the category
    Food) whose description has 501 characters is refused by
    [ExpenseCreate]; the response is the generic error and nothing is
    persisted, on a healthy and empty store. *)
Lemma complete_expense_counterexample :
  is_expense long_pizza = true
  /\ description long_pizza = Some long_description
  /\ py_len long_description = 501
  /\ amount long_pizza = Some 20%float /\ (0 <? 20)%float = true
  /\ category long_pizza = Some FOOD
  /\ @ExpenseService.process_message _ (Models.MemSession Models.healthy)
       (fun _ => Ok long_pizza) 7 "Pizza 20 reais" empty_db
     = (Ok ExpenseService.error_processing, empty_db)
  /\ success ExpenseService.error_processing = false
  /\ Models.table empty_db = [].
Proof.
  repeat split; vm_compute; reflexivity.
Qed.

Lemma non_expense_is_declined_witness :
  @ExpenseService.process_message _ (Models.MemSession Models.healthy)
     (fun _ => Ok hello) 7 "hi" empty_db
  = (Ok ExpenseService.not_an_expense, empty_db).
Proof.
  exact (proj1 (@non_expense_is_declined _ (Models.MemSession Models.healthy)
                  (fun _ => Ok hello) 7 "hi" empty_db hello eq_refl eq_refl)).
Defined.

(** A store whose [commit] fails: the response is the generic error, and
    no row reaches the table. *)
Lemma process_message_never_raises_witness :
  @ExpenseService.process_message _ (Models.MemSession commit_fails)
     (fun _ => Ok pizza) 7 "Pizza 20 reais" empty_db
  = (Ok ExpenseService.error_processing,
     {| Models.table := []; Models.pending := [pizza_object]; Models.next_id := 1 |}).
Proof.
  destruct (@process_message_never_raises _ (Models.MemSession commit_fails)
              (fun _ => Ok pizza) 7 "Pizza 20 reais" empty_db)
    as (o & s' & Hrun & _ & Hstore & _).
  assert (Hall : ExpenseService.all_fields pizza = true) by (vm_compute; reflexivity).
  assert (Hec : ExpenseCreate_new 7 "Pizza" (Decimal_of_str_float 20) FOOD = Ok pizza_create)
    by (vm_compute; reflexivity).
  assert (Hce : @ExpenseService.create_expense _ (Models.MemSession commit_fails)
                  pizza_create empty_db
                = (Err (SQLAlchemyError "connection lost"),
                   {| Models.table := []; Models.pending := [pizza_object];
                      Models.next_id := 1 |}))
    by reflexivity.
  destruct (Hstore pizza "Pizza" 20%float FOOD pizza_create _ _
              eq_refl eq_refl Hall eq_refl eq_refl eq_refl Hec Hce) as [Ho Hs].
  rewrite Ho, Hs in Hrun. exact Hrun.
Defined.

(** *** The scenarios of the specification, end to end *)

(** "Pizza 20 reais" answered with the pizza completion: success, a message
    that names Food, an expense id, and the amount 20.0 in the table. *)
Example scenario_pizza :
  @ExpenseService.process_message _ (Models.MemSession Models.healthy)
     (@awaited fixture_runtime (fun _ _ => Ok pizza_json)) 7 "Pizza 20 reais" empty_db
  = (Ok (ExpenseService.added FOOD (Some 1)),
     {| Models.table :=
          [{| Models.id := Some 1; Models.user_id := 7;
              Models.description := "Pizza";
              Models.amount := DecFinite false 200 (-1);
              Models.category := "Food" |}];
        Models.pending := [];
        Models.next_id := 2 |})
  /\ contains "Food" (message (ExpenseService.added FOOD (Some 1))) = true.
Proof. split; vm_compute; reflexivity. Qed.

(** The same completion wrapped in prose goes through the fallback parse. *)
Example scenario_pizza_in_prose :
  @awaited fixture_runtime
     (fun _ _ => Ok ("Here is the JSON: " ++ pizza_json ++ " Anything else?"))
     "Pizza 20 reais"
  = Ok pizza.
Proof. vm_compute. reflexivity. Qed.

(** "hi" answered with the greeting completion: declined, nothing stored. *)
Example scenario_hi :
  @ExpenseService.process_message _ (Models.MemSession Models.healthy)
     (@awaited fixture_runtime (fun _ _ => Ok hello_json)) 7 "hi" empty_db
  = (Ok ExpenseService.not_an_expense, empty_db).
Proof. vm_compute. reflexivity. Qed.

(** An amount of a tenth of a cent is stored as zero by the model and then
    taken for a missing amount. *)
Example scenario_subcent_amount :
  forall rt : Runtime,
    @ExpenseService.process_message _ (Models.MemSession Models.healthy)
       (fun _ => ExpenseExtraction_new
                   [("is_expense", PBool true); ("description", PStr "Gum");
                    ("amount", PFloat 0.001); ("category", PStr "Food")])
       7 "Gum 0.001" empty_db
    = (Ok ExpenseService.incomplete, empty_db).
Proof. intro rt. vm_compute. reflexivity. Qed.

(** A chain that is down: three attempts, then the generic error. *)
Example scenario_provider_down :
  @ExpenseService.process_message _ (Models.MemSession Models.healthy)
     (@awaited fixture_runtime dead_chain) 7 "Pizza 20 reais" empty_db
  = (Ok ExpenseService.error_processing, empty_db).
Proof. vm_compute. reflexivity. Qed.

(* ===================================================================== *)
(** ** Further properties *)
(* ===================================================================== *)

(** *** The decision table of [process_message] *)

Section DecisionTable.

Import ExpenseService.

Context {S : Type} {db : Models.Session S}.

Variable extract : string -> res ExpenseExtraction.

Lemma all_fields_present (e : ExpenseExtraction) :
  all_fields e = true ->
  exists d a c, description e = Some d /\ amount e = Some a /\ category e = Some c.
Proof.
  unfold all_fields.
  destruct (description e) as [d|]; [|discriminate].
  destruct (amount e) as [a|]; [|rewrite andb_false_r; discriminate].
  destruct (category e) as [c|]; [|rewrite andb_false_r; discriminate].
  intros _. exists d, a, c. repeat split.
Qed.

(** Every run of [process_message] is one row of its decision table. *)
Lemma process_message_cases (user_id : Z) (text : string) (s : S) :
  (exists x, extract text = Err x
             /\ process_message extract user_id text s = (Ok error_processing, s))
  \/ (exists e, extract text = Ok e /\ is_expense e = false
                /\ process_message extract user_id text s = (Ok not_an_expense, s))
  \/ (exists e, extract text = Ok e /\ is_expense e = true /\ all_fields e = false
                /\ process_message extract user_id text s = (Ok incomplete, s))
  \/ (exists e d a c,
        extract text = Ok e /\ is_expense e = true /\ all_fields e = true
        /\ description e = Some d /\ amount e = Some a /\ category e = Some c
        /\ ((exists x, ExpenseCreate_new user_id d (Decimal_of_str_float a) c = Err x
                       /\ process_message extract user_id text s = (Ok error_processing, s))
            \/ (exists ec x s1,
                  ExpenseCreate_new user_id d (Decimal_of_str_float a) c = Ok ec
                  /\ create_expense ec s = (Err x, s1)
                  /\ process_message extract user_id text s = (Ok error_processing, s1))
            \/ (exists ec expense s1,
                  ExpenseCreate_new user_id d (Decimal_of_str_float a) c = Ok ec
                  /\ create_expense ec s = (Ok expense, s1)
                  /\ process_message extract user_id text s
                     = (Ok (added c (Models.id expense)), s1)))).
Proof.
  unfold process_message, try_except, bind, lift.
  destruct (extract text) as [e|x0] eqn:Hex.
  2:{ left. exists x0. split; reflexivity. }
  destruct (is_expense e) eqn:Hie; cbn [negb].
  2:{ right. left. exists e. repeat split; assumption. }
  destruct (all_fields e) eqn:Hall; cbn [negb].
  2:{ right. right. left. exists e. repeat split; assumption. }
  right. right. right.
  destruct (all_fields_present e Hall) as (d & a & c & Hd & Ha & Hc).
  rewrite Hd, Ha, Hc. exists e, d, a, c.
  do 6 (split; [reflexivity || assumption|]).
  destruct (ExpenseCreate_new user_id d (Decimal_of_str_float a) c) as [ec|x1] eqn:Hec.
  2:{ left. exists x1. split; reflexivity. }
  right.
  destruct (create_expense ec s) as [[expense|x2] s2] eqn:Hce.
  - right. exists ec, expense, s2. repeat split; reflexivity || assumption.
  - left. exists ec, x2, s2. repeat split; reflexivity || assumption.
Qed.

(** X1.  The third row of the decision table: an extraction that says
    [is_expense = true] but lacks one of the three details -- no
    description or an empty one, no amount or a zero amount, no category --
    is answered with "Could not extract all expense details", with
    [success = false] and no expense id, and the store is left as it
    was. *)
Theorem incomplete_extraction_is_declined (user_id : Z) (text : string) (s : S)
    (e : ExpenseExtraction)
    (Hextract : extract text = Ok e)
    (Hexpense : is_expense e = true)
    (Hmissing : description e = None \/ description e = Some ""
                \/ amount e = None
                \/ (exists a, amount e = Some a /\ (a =? 0)%float = true)
                \/ category e = None) :
  process_message extract user_id text s = (Ok incomplete, s)
  /\ success incomplete = false
  /\ expense_id incomplete = None
  /\ contains "Could not extract all expense details" (message incomplete) = true.
Proof.
  split; [|repeat split; vm_compute; reflexivity].
  assert (Hall : all_fields e = false).
  { unfold all_fields.
    destruct Hmissing as [H|[H|[H|[(a & H & Hz)|H]]]]; rewrite H.
    - reflexivity.
    - reflexivity.
    - rewrite andb_false_r. reflexivity.
    - unfold float_truthy. rewrite Hz. cbn [negb]. rewrite andb_false_r. reflexivity.
    - rewrite andb_false_r. reflexivity. }
  unfold process_message, try_except, bind, lift.
  rewrite Hextract, Hexpense, Hall. reflexivity.
Qed.

(** X2.  [process_message] answers [success = true] only when the
    extraction was complete, [ExpenseCreate] accepted it, and [add],
    [commit] and [refresh] all returned: the id in the answer is then the
    one of the refreshed expense.  And when it answers [success = false],
    either the session is exactly as it was, or [create_expense] was
    reached and raised. *)
Theorem success_only_after_the_store_returned (user_id : Z) (text : string) (s s' : S)
    (o : ExpenseResponse)
    (Hrun : process_message extract user_id text s = (Ok o, s')) :
  (success o = true ->
     exists e d a c ec expense,
       extract text = Ok e
       /\ description e = Some d /\ amount e = Some a /\ category e = Some c
       /\ ExpenseCreate_new user_id d (Decimal_of_str_float a) c = Ok ec
       /\ create_expense ec s = (Ok expense, s')
       /\ o = added c (Models.id expense))
  /\ (success o = false ->
        s' = s \/ exists ec x, create_expense ec s = (Err x, s')).
Proof.
  destruct (process_message_cases user_id text s)
    as [(x & _ & H)|[(e & _ & _ & H)|[(e & _ & _ & _ & H)
        |(e & d & a & c & He & _ & _ & Hd & Ha & Hc
          & [(x & _ & H)|[(ec & x & s1 & _ & Hce & H)|(ec & expense & s1 & Hec & Hce & H)]])]]];
    rewrite H in Hrun; injection Hrun as <- <-.
  1-4: split; [discriminate | intros _; left; reflexivity].
  - split; [discriminate | intros _; right; exists ec, x; exact Hce].
  - split; [|discriminate].
    intros _. exists e, d, a, c, ec, expense. repeat split; assumption.
Qed.

End DecisionTable.

Lemma incomplete_extraction_is_declined_witness :
  @ExpenseService.process_message _ (Models.MemSession Models.healthy)
     (fun _ => Ok MoreFixtures.pizza_without_amount) 7 "Pizza" empty_db
  = (Ok ExpenseService.incomplete, empty_db).
Proof.
  exact (proj1 (@incomplete_extraction_is_declined _ (Models.MemSession Models.healthy)
                  (fun _ => Ok MoreFixtures.pizza_without_amount) 7 "Pizza" empty_db
                  MoreFixtures.pizza_without_amount eq_refl eq_refl
                  (or_intror (or_intror (or_introl eq_refl))))).
Defined.

Lemma success_only_after_the_store_returned_witness :
  exists expense,
    @ExpenseService.create_expense _ (Models.MemSession Models.healthy) pizza_create empty_db
    = (Ok expense,
       {| Models.table :=
            [{| Models.id := Some 1; Models.user_id := 7;
                Models.description := "Pizza";
                Models.amount := DecFinite false 200 (-1);
                Models.category := "Food" |}];
          Models.pending := [];
          Models.next_id := 2 |})
    /\ Models.id expense = Some 1.
Proof.
  assert (Hrun : @ExpenseService.process_message _ (Models.MemSession Models.healthy)
                   (fun _ => Ok pizza) 7 "Pizza 20 reais" empty_db
                 = (Ok (ExpenseService.added FOOD (Some 1)),
                    {| Models.table :=
                         [{| Models.id := Some 1; Models.user_id := 7;
                             Models.description := "Pizza";
                             Models.amount := DecFinite false 200 (-1);
                             Models.category := "Food" |}];
                       Models.pending := [];
                       Models.next_id := 2 |}))
    by (vm_compute; reflexivity).
  destruct (proj1 (@success_only_after_the_store_returned _
                     (Models.MemSession Models.healthy) (fun _ => Ok pizza) 7
                     "Pizza 20 reais" empty_db _ _ Hrun) eq_refl)
    as (e & d & a & c & ec & expense & He & Hd & Ha & Hc & Hec & Hce & Ho).
  exists expense.
  assert (Ee : e = pizza) by congruence. subst e.
  assert (Hec' : ExpenseCreate_new 7 "Pizza" (Decimal_of_str_float 20) FOOD = Ok pizza_create)
    by (vm_compute; reflexivity).
  assert (Eec : ec = pizza_create).
  { cbn in Hd, Hc. assert (d = "Pizza") by congruence. assert (c = FOOD) by congruence.
    subst d c.
    assert (Hdec : Decimal_of_str_float a = Decimal_of_str_float 20).
    { cbn [amount pizza] in Ha.
      change (Decimal_of_str_float a
              = match Some 20%float with
                | Some v => Decimal_of_str_float v
                | None => DecNaN
                end).
      rewrite Ha. reflexivity. }
    rewrite Hdec, Hec' in Hec. congruence. }
  subst ec. split; [exact Hce|].
  apply (f_equal expense_id) in Ho. cbn in Ho. congruence.
Defined.

(** *** Categories, and the rows that reach the store *)

(** X3.  A label names a category exactly when it is the value of that
    category: each of the eleven values reads back as its member, and no
    other text (another letter case included) is taken for a category. *)
Theorem category_label_round_trip (label : string) (c : ExpenseCategory) :
  ExpenseCategory_of_value label = Some c <-> value c = label.
Proof.
  split.
  - unfold ExpenseCategory_of_value. intro H.
    apply find_some in H. destruct H as [_ H].
    apply String.eqb_eq in H. exact H.
  - intros <-. destruct c; reflexivity.
Qed.

Lemma ExpenseCreate_new_inv (user_id : Z) (d : string) (a : Decimal)
    (c : ExpenseCategory) (ec : ExpenseCreate) :
  ExpenseCreate_new user_id d a c = Ok ec ->
  ec = {| ec_user_id := user_id; ec_description := d; ec_amount := a; ec_category := c |}
  /\ 0 < user_id /\ 1 <= py_len d <= 500 /\ amount_ok a = true.
Proof.
  unfold ExpenseCreate_new.
  destruct (Z.ltb_spec 0 user_id) as [Huser|_]; [|discriminate].
  destruct (Z.leb_spec 1 (py_len d)) as [Hlo|_]; cbn [andb]; [|discriminate].
  destruct (Z.leb_spec (py_len d) 500) as [Hhi|_]; [|discriminate].
  destruct (amount_ok a); [|discriminate].
  cbn [app]. intro H. injection H as <-. repeat split; assumption || lia.
Qed.

(** The object [create_expense] adds for an accepted [ExpenseCreate] is a
    valid row. *)
Lemma created_object_valid (user_id : Z) (d : string) (a : Decimal)
    (c : ExpenseCategory) (ec : ExpenseCreate) (k : option Z) :
  ExpenseCreate_new user_id d a c = Ok ec ->
  Checks.row_valid
    {| Models.id := k;
       Models.user_id := ec_user_id ec;
       Models.description := ec_description ec;
       Models.amount := ec_amount ec;
       Models.category := value (ec_category ec) |} = true.
Proof.
  intro H. apply ExpenseCreate_new_inv in H.
  destruct H as (-> & Huser & [Hlo Hhi] & Hamount).
  unfold Checks.row_valid. cbn.
  rewrite Hamount, (proj2 (Z.ltb_lt _ _) Huser), (proj2 (Z.leb_le _ _) Hlo),
    (proj2 (Z.leb_le _ _) Hhi).
  destruct c; reflexivity.
Qed.

Lemma assign_ids_valid (rows : list Models.Expense) :
  forall first : Z,
    Forall (fun r => Checks.row_valid r = true) rows ->
    Forall (fun r => Checks.row_valid r = true) (Models.assign_ids first rows).
Proof.
  induction rows as [|r rows IH]; intros first H; [constructor|].
  inversion H as [|r' rows' Hr Hrows]; subst.
  cbn [Models.assign_ids]. constructor; [exact Hr | apply IH, Hrows].
Qed.

(** Whatever fails, [create_expense] on the in-memory store keeps the rows
    of the table and the pending objects valid when the object it adds is
    valid. *)
Lemma create_expense_keeps_valid (f : Models.Faults) (ec : ExpenseCreate)
    (d0 : Models.Db) :
  Checks.row_valid
    {| Models.id := None;
       Models.user_id := ec_user_id ec;
       Models.description := ec_description ec;
       Models.amount := ec_amount ec;
       Models.category := value (ec_category ec) |} = true ->
  Forall (fun r => Checks.row_valid r = true) (Models.table d0) ->
  Forall (fun r => Checks.row_valid r = true) (Models.pending d0) ->
  let d1 := snd (@ExpenseService.create_expense _ (Models.MemSession f) ec d0) in
  Forall (fun r => Checks.row_valid r = true) (Models.table d1)
  /\ Forall (fun r => Checks.row_valid r = true) (Models.pending d1).
Proof.
  intros Hobj Htable Hpending.
  unfold ExpenseService.create_expense, bind, ret.
  cbn [Models.add Models.commit Models.refresh Models.MemSession].
  unfold Models.mem_add, Models.mem_commit, Models.mem_refresh.
  destruct (Models.add_fault f); cbn [snd]; [split; assumption|].
  cbn [Models.table Models.pending Models.next_id].
  assert (Hpending' : Forall (fun r => Checks.row_valid r = true)
                        (Models.pending d0 ++ [ {| Models.id := None;
                             Models.user_id := ec_user_id ec;
                             Models.description := ec_description ec;
                             Models.amount := ec_amount ec;
                             Models.category := value (ec_category ec) |} ])).
  { apply Forall_app. split; [exact Hpending|]. constructor; [exact Hobj | constructor]. }
  destruct (Models.commit_fault f); cbn [snd Models.table Models.pending];
    [split; assumption|].
  assert (Htable' : Forall (fun r => Checks.row_valid r = true)
                      (Models.table d0
                       ++ Models.assign_ids (Models.next_id d0)
                            (Models.pending d0 ++ [ {| Models.id := None;
                               Models.user_id := ec_user_id ec;
                               Models.description := ec_description ec;
                               Models.amount := ec_amount ec;
                               Models.category := value (ec_category ec) |} ]))).
  { apply Forall_app. split; [exact Htable|]. apply assign_ids_valid, Hpending'. }
  destruct (Models.refresh_fault f); cbn [snd Models.table Models.pending];
    [split; [exact Htable' | constructor]|].
  match goal with
  | |- context [List.find ?p ?l] => destruct (List.find p l)
  end; cbn [snd Models.table Models.pending]; split; (exact Htable' || constructor).
Qed.

(** X4.  Every row that [process_message] lets into the store went through
    [ExpenseCreate]: on the in-memory store, with any fault injected at
    [add], [commit] or [refresh] and for any extraction and any message, a
    table and a list of pending objects whose rows are all valid (positive
    user id, description of 1 to 500 characters, finite amount above zero
    with at most two decimal places, category that is one of the eleven
    labels) still are after the call. *)
Theorem process_message_keeps_rows_valid (f : Models.Faults)
    (extract : string -> res ExpenseExtraction) (user_id : Z) (text : string)
    (d0 : Models.Db)
    (Htable : Forall (fun r => Checks.row_valid r = true) (Models.table d0))
    (Hpending : Forall (fun r => Checks.row_valid r = true) (Models.pending d0)) :
  let d1 := snd (@ExpenseService.process_message _ (Models.MemSession f)
                   extract user_id text d0) in
  Forall (fun r => Checks.row_valid r = true) (Models.table d1)
  /\ Forall (fun r => Checks.row_valid r = true) (Models.pending d1).
Proof.
  destruct (@process_message_cases _ (Models.MemSession f) extract user_id text d0)
    as [(x & _ & H)|[(e & _ & _ & H)|[(e & _ & _ & _ & H)
        |(e & d & a & c & _ & _ & _ & _ & _ & _
          & [(x & _ & H)|[(ec & x & s1 & Hec & Hce & H)|(ec & expense & s1 & Hec & Hce & H)]])]]];
    rewrite H; cbn [snd]; try (split; assumption).
  - pose proof (create_expense_keeps_valid f ec d0
                  (created_object_valid _ _ _ _ _ None Hec) Htable Hpending) as Hkeep.
    cbv zeta in Hkeep. rewrite Hce in Hkeep. exact Hkeep.
  - pose proof (create_expense_keeps_valid f ec d0
                  (created_object_valid _ _ _ _ _ None Hec) Htable Hpending) as Hkeep.
    cbv zeta in Hkeep. rewrite Hce in Hkeep. exact Hkeep.
Qed.

Lemma process_message_keeps_rows_valid_witness :
  Forall (fun r => Checks.row_valid r = true)
    (Models.table
       (snd (@ExpenseService.process_message _ (Models.MemSession Models.healthy)
               (fun _ => Ok pizza) 7 "Pizza 20 reais" empty_db))).
Proof.
  exact (proj1 (process_message_keeps_rows_valid Models.healthy (fun _ => Ok pizza) 7
                  "Pizza 20 reais" empty_db (Forall_nil _) (Forall_nil _))).
Defined.

(** *** What a failing store leaves behind *)

(** A complete extraction always reaches [create_expense], and the answer
    is decided by what [create_expense] does. *)
Lemma complete_reaches_create {S : Type} {db : Models.Session S}
    (extract : string -> res ExpenseExtraction)
    (user_id : Z) (text : string) (s : S)
    (e : ExpenseExtraction) (d : string) (a : float) (c : ExpenseCategory) :
  extract text = Ok e -> is_expense e = true ->
  description e = Some d -> 1 <= py_len d <= 500 ->
  amount e = Some a -> (0 <? a)%float = true ->
  amount_ok (Decimal_of_str_float a) = true ->
  category e = Some c -> 0 < user_id ->
  ExpenseService.process_message extract user_id text s
  = match ExpenseService.create_expense
            {| ec_user_id := user_id; ec_description := d;
               ec_amount := Decimal_of_str_float a; ec_category := c |} s with
    | (Ok expense, s1) => (Ok (ExpenseService.added c (Models.id expense)), s1)
    | (Err x, s1) => (Ok ExpenseService.error_processing, s1)
    end.
Proof.
  intros Hextract Hexpense Hd Hlen Ha Hpos Hdec Hc Huser.
  unfold ExpenseService.process_message, try_except, bind at 1, lift at 1.
  rewrite Hextract, Hexpense. cbn [negb].
  assert (Hall : ExpenseService.all_fields e = true).
  { unfold ExpenseService.all_fields. rewrite Hd, Ha, Hc.
    rewrite (py_len_nonempty d (proj1 Hlen)), (positive_float_truthy a Hpos),
      value_nonempty. reflexivity. }
  rewrite Hall, Hd, Ha, Hc. cbn [negb].
  assert (Hcreate : ExpenseCreate_new user_id d (Decimal_of_str_float a) c
                    = Ok {| ec_user_id := user_id; ec_description := d;
                            ec_amount := Decimal_of_str_float a; ec_category := c |}).
  { unfold ExpenseCreate_new. rewrite Hdec.
    destruct (Z.ltb_spec 0 user_id); [|lia].
    destruct (Z.leb_spec 1 (py_len d)); [|lia].
    destruct (Z.leb_spec (py_len d) 500); [|lia].
    reflexivity. }
  unfold bind at 1, lift. rewrite Hcreate. unfold bind at 1.
  destruct (ExpenseService.create_expense _ s) as [[expense|x] s1]; reflexivity.
Qed.

(** X5.  A failing store is always reported as the generic error, but what
    it leaves behind depends on where it failed.  For a complete extraction
    on the in-memory store with a fault at [add], [commit] or [refresh]:
    the answer is the generic error; when [add] or [commit] failed the
    table is as before; when both went through and [refresh] failed, the
    expense is in the table although the user was told of an error. *)
Theorem failing_store_is_reported
    (f : Models.Faults)
    (extract : string -> res ExpenseExtraction)
    (user_id : Z) (text : string) (d0 : Models.Db)
    (e : ExpenseExtraction) (d : string) (a : float) (c : ExpenseCategory)
    (Hfault : Models.add_fault f <> None \/ Models.commit_fault f <> None
              \/ Models.refresh_fault f <> None)
    (Hextract : extract text = Ok e)
    (Hexpense : is_expense e = true)
    (Hd : description e = Some d) (Hlen : 1 <= py_len d <= 500)
    (Ha : amount e = Some a) (Hpos : (0 <? a)%float = true)
    (Hdec : amount_ok (Decimal_of_str_float a) = true)
    (Hc : category e = Some c)
    (Huser : 0 < user_id)
    (Hpending : Models.pending d0 = []) :
  let row :=
    {| Models.id := Some (Models.next_id d0);
       Models.user_id := user_id;
       Models.description := d;
       Models.amount := Decimal_of_str_float a;
       Models.category := value c |} in
  exists d1,
    @ExpenseService.process_message _ (Models.MemSession f) extract user_id text d0
    = (Ok ExpenseService.error_processing, d1)
    /\ Models.table d1
       = match Models.add_fault f, Models.commit_fault f with
         | None, None => (Models.table d0 ++ [row])%list
         | _, _ => Models.table d0
         end.
Proof.
  intro row.
  rewrite (complete_reaches_create extract user_id text d0 e d a c
             Hextract Hexpense Hd Hlen Ha Hpos Hdec Hc Huser).
  unfold ExpenseService.create_expense, bind, ret.
  cbn [Models.add Models.commit Models.refresh Models.MemSession].
  unfold Models.mem_add, Models.mem_commit, Models.mem_refresh.
  destruct (Models.add_fault f) as [x1|]; [eexists; split; reflexivity|].
  cbn [Models.table Models.pending Models.next_id].
  destruct (Models.commit_fault f) as [x2|]; [eexists; split; reflexivity|].
  cbn [Models.table Models.pending Models.next_id].
  destruct (Models.refresh_fault f) as [x3|].
  - eexists. split; [reflexivity|]. cbn [Models.table].
    rewrite Hpending. reflexivity.
  - exfalso. destruct Hfault as [H|[H|H]]; apply H; reflexivity.
Qed.

Lemma failing_store_is_reported_witness :
  exists d1,
    @ExpenseService.process_message _ (Models.MemSession MoreFixtures.refresh_fails)
       (fun _ => Ok pizza) 7 "Pizza 20 reais" empty_db
    = (Ok ExpenseService.error_processing, d1)
    /\ Models.table d1
       = [{| Models.id := Some 1; Models.user_id := 7;
             Models.description := "Pizza";
             Models.amount := DecFinite false 200 (-1);
             Models.category := "Food" |}].
Proof.
  assert (Hfault : Models.add_fault MoreFixtures.refresh_fails <> None
                   \/ Models.commit_fault MoreFixtures.refresh_fails <> None
                   \/ Models.refresh_fault MoreFixtures.refresh_fails <> None)
    by (right; right; discriminate).
  assert (Hlen : 1 <= py_len "Pizza" <= 500) by (vm_compute; split; discriminate).
  assert (Hpos : (0 <? 20)%float = true) by (vm_compute; reflexivity).
  assert (Hdec : amount_ok (Decimal_of_str_float 20) = true) by (vm_compute; reflexivity).
  destruct (failing_store_is_reported MoreFixtures.refresh_fails (fun _ => Ok pizza) 7
              "Pizza 20 reais" empty_db pizza "Pizza" 20%float FOOD
              Hfault eq_refl eq_refl eq_refl Hlen eq_refl Hpos Hdec
              eq_refl eq_refl eq_refl) as (d1 & Hrun & Htable).
  exists d1. split; [exact Hrun|].
  rewrite Htable. vm_compute. reflexivity.
Defined.

(** *** Where a run of [extract_expense] stops *)

Section RetryShape.

Context {rt : Runtime}.

(** X6.  Every run of [extract_expense] returns, and it stops at the first
    attempt that succeeds, or at the third: given fuel for three
    iterations there is a [k <= 2] such that the chain's calls
    [0 .. k - 1] failed, the result is that of call [k], and an error is
    returned only for [k = 2].  The run made [k + 1] attempts and paused
    [k] times for 2 units each, at most 4 units in all; a first attempt
    that succeeds is neither repeated nor followed by a pause. *)
Theorem extract_expense_stops_at_first_success (fuel : nat) (chain : Chain)
    (message : string) (Hfuel : (3 <= fuel)%nat) :
  exists (r : res ExpenseExtraction) (trace : list event) (k : nat),
    extract_expense fuel chain message = Some (r, trace)
    /\ (k <= 2)%nat
    /\ (forall j, (j < k)%nat -> exists e, extract_expense_body chain j message = Err e)
    /\ extract_expense_body chain k message = r
    /\ ((k < 2)%nat -> exists v, r = Ok v)
    /\ attempts trace = S k
    /\ sleeps trace = repeat 2 k
    /\ Checks.total_sleep trace = 2 * Z.of_nat k.
Proof.
  destruct (retrying_terminates (wait_exponential 1 2 10)
              (fun attempt_number =>
                 extract_expense_body chain (Nat.pred attempt_number) message)
              3 fuel 1 ltac:(lia)) as (r & trace & Hrun & _).
  destruct (retrying_shape _ _ _ _ _ _ _ Hrun)
    as (k & Hfail & Hlast & Herr & Hcount & Hsleeps).
  assert (Hk : (k <= 2)%nat).
  { destruct k as [|[|[|k]]]; try lia.
    destruct (Hfail 2%nat ltac:(lia)) as [_ Hstop]. discriminate Hstop. }
  exists r, trace, k. cbn [Nat.add Nat.pred] in Hlast.
  assert (Hsl : sleeps trace = repeat 2 k).
  { rewrite Hsleeps. destruct k as [|[|[|k]]]; try lia; reflexivity. }
  split; [exact Hrun|]. split; [exact Hk|].
  split; [|split; [exact Hlast|split; [|split; [exact Hcount|split]]]].
  - intros j Hj. destruct (Hfail j Hj) as [He _]. exact He.
  - intro Hlt. destruct r as [v|e]; [exists v; reflexivity|].
    specialize (Herr e eq_refl).
    destruct k as [|[|k]]; try lia; discriminate Herr.
  - exact Hsl.
  - unfold Checks.total_sleep. rewrite Hsl.
    destruct k as [|[|[|k]]]; try lia; reflexivity.
Qed.

End RetryShape.

(** The flaky chain: a timeout, then prose, then the pizza.  The run stops
    at the third attempt, after two pauses. *)
Lemma extract_expense_stops_at_first_success_witness :
  exists trace : list event,
    @extract_expense fixture_runtime 3 flaky_chain "Pizza 20 reais"
    = Some (Ok pizza, trace)
    /\ attempts trace = 3%nat
    /\ sleeps trace = [2; 2]
    /\ Checks.total_sleep trace = 4.
Proof.
  destruct (@extract_expense_stops_at_first_success fixture_runtime 3 flaky_chain
              "Pizza 20 reais" (le_n 3))
    as (r & trace & k & Hrun & Hk & _ & Hlast & Hok & Hcount & Hsleeps & Htotal).
  assert (Hk2 : k = 2%nat).
  { destruct k as [|[|[|k]]]; [| |reflexivity|lia].
    - destruct (Hok ltac:(lia)) as [v Hv]. rewrite Hv in Hlast.
      vm_compute in Hlast. discriminate Hlast.
    - destruct (Hok ltac:(lia)) as [v Hv]. rewrite Hv in Hlast.
      vm_compute in Hlast. discriminate Hlast. }
  subst k. exists trace.
  assert (Hr : r = Ok pizza) by (rewrite <- Hlast; vm_compute; reflexivity).
  rewrite Hr in Hrun.
  split; [exact Hrun|]. split; [exact Hcount|]. split; [exact Hsleeps | exact Htotal].
Defined.

(** *** What the fallback parse hands to [json.loads] *)

Lemma find_from_decompose (c : ascii) (s : string) (i : Z) :
  has_char c s = true ->
  exists pre rest,
    s = pre ++ String c rest /\ has_char c pre = false
    /\ find_from (String c "") s i = i + Z.of_nat (String.length pre).
Proof.
  revert i. induction s as [|a s IH]; intros i H; [discriminate|].
  cbn [has_char] in H.
  destruct (Ascii.eqb a c) eqn:E.
  - apply Ascii.eqb_eq in E. subst a. exists "", s.
    split; [reflexivity|]. split; [reflexivity|].
    cbn [find_from]. rewrite prefix_char, Ascii.eqb_refl. cbn. lia.
  - cbn [orb] in H. destruct (IH (i + 1) H) as (pre & rest & -> & Hpre & Hfind).
    exists (String a pre), rest. split; [reflexivity|].
    split; [cbn [has_char]; rewrite E, Hpre; reflexivity|].
    cbn [find_from append]. rewrite prefix_char, Ascii.eqb_sym, E.
    rewrite Hfind. cbn [String.length]. lia.
Qed.

Lemma rfind_from_decompose (c : ascii) (s : string) (i : Z) :
  0 <= i -> has_char c s = true ->
  exists body post,
    s = body ++ String c post /\ has_char c post = false
    /\ rfind_from (String c "") s i = i + Z.of_nat (String.length body).
Proof.
  revert i. induction s as [|a s IH]; intros i Hi H; [discriminate|].
  cbn [has_char] in H.
  destruct (has_char c s) eqn:Hs.
  - destruct (IH (i + 1) ltac:(lia) eq_refl) as (body & post & -> & Hpost & Hr).
    exists (String a body), post. split; [reflexivity|]. split; [exact Hpost|].
    cbn [rfind_from append]. rewrite Hr.
    destruct (i + 1 + Z.of_nat (String.length body) =? -1) eqn:E;
      [apply Z.eqb_eq in E; lia|].
    cbn [String.length]. lia.
  - rewrite orb_false_r in H. apply Ascii.eqb_eq in H. subst a.
    exists "", s. split; [reflexivity|]. split; [exact Hs|].
    cbn [rfind_from]. rewrite (rfind_from_absent c s (i + 1) Hs).
    cbn [Z.eqb]. rewrite prefix_char, Ascii.eqb_refl. cbn. lia.
Qed.

Lemma append_split (p x b y : string) :
  p ++ x = b ++ y -> (String.length p <= String.length b)%nat ->
  exists m, b = p ++ m /\ x = m ++ y.
Proof.
  revert b. induction p as [|a p IH]; intros b H Hlen.
  - exists b. split; [reflexivity | exact H].
  - destruct b as [|a' b]; [cbn in Hlen; lia|].
    cbn [append] in H. injection H as -> H.
    destruct (IH b H ltac:(cbn [String.length] in Hlen; lia)) as (m & -> & Hx).
    exists m. split; [reflexivity | exact Hx].
Qed.

Lemma substring_nothing (s : string) (n : nat) : substring n 0 s = "".
Proof.
  revert n. induction s as [|a s IH]; intros [|n]; cbn [substring]; try reflexivity.
  apply IH.
Qed.

Section FallbackShape.

Context {rt : Runtime}.

(** X7.  The fallback parse never hands prose to [json.loads].  For every
    completion one of three things holds: a brace is missing and the
    fallback raises "No JSON found in response"; or the last closing brace
    stands before the first opening one and [json.loads] is given the empty
    text; or the completion is some prose without an opening brace, a text
    that starts with an opening and ends with a closing brace, and some
    prose without a closing brace, and [json.loads] is given exactly the
    text between and including those braces. *)
Theorem fallback_reads_only_between_braces (text : string) :
  ((has_char "{" text = false \/ has_char "}" text = false)
   /\ _extract_and_parse_json text = Err (ValueError "No JSON found in response"))
  \/ (rfind text "}" < find text "{"
      /\ _extract_and_parse_json text
         = res_bind (json_loads "") (fun data => ExpenseExtraction_of data))
  \/ (exists pre mid post,
        text = pre ++ braced mid ++ post
        /\ has_char "{" pre = false /\ has_char "}" post = false
        /\ _extract_and_parse_json text
           = res_bind (json_loads (braced mid)) (fun data => ExpenseExtraction_of data)).
Proof.
  destruct (has_char "{" text) eqn:Hopen;
    [|left; split; [left; reflexivity | apply fallback_without_braces; left; exact Hopen]].
  destruct (has_char "}" text) eqn:Hclose;
    [|left; split; [right; reflexivity | apply fallback_without_braces; right; exact Hclose]].
  right.
  destruct (find_from_decompose "{"%char text 0 Hopen) as (pre & rest & Htext & Hpre & Hfind).
  destruct (rfind_from_decompose "}"%char text 0 ltac:(lia) Hclose)
    as (body & post & Htext' & Hpost & Hrfind).
  fold (find text "{") in Hfind. fold (rfind text "}") in Hrfind.
  destruct (Nat.lt_ge_cases (String.length body) (String.length pre)) as [Hlt|Hge].
  - left. split; [lia|].
    unfold _extract_and_parse_json. rewrite Hfind, Hrfind.
    destruct (0 + Z.of_nat (String.length pre) =? -1) eqn:E1;
      [apply Z.eqb_eq in E1; lia|].
    destruct (0 + Z.of_nat (String.length body) + 1 =? 0) eqn:E2;
      [apply Z.eqb_eq in E2; lia|].
    cbn [orb]. unfold slice.
    replace (Z.to_nat (0 + Z.of_nat (String.length body) + 1
                       - (0 + Z.of_nat (String.length pre)))) with 0%nat by lia.
    rewrite substring_nothing. reflexivity.
  - right.
    assert (Heq : pre ++ String "{" rest = body ++ String "}" post) by congruence.
    destruct (append_split pre (String "{" rest) body (String "}" post) Heq Hge)
      as (m & Hbody & Hrest).
    destruct m as [|a mid].
    + cbn [append] in Hrest. discriminate Hrest.
    + cbn [append] in Hrest. injection Hrest as <- Hrest.
      exists pre, mid, post.
      assert (Hshape : text = pre ++ braced mid ++ post).
      { rewrite Htext, Hrest. unfold braced. cbn [append]. f_equal. f_equal.
        clear. induction mid as [|b mid IH]; cbn [append]; [reflexivity|].
        f_equal. exact IH. }
      split; [exact Hshape|]. split; [exact Hpre|]. split; [exact Hpost|].
      rewrite Hshape. apply fallback_reads_slice; assumption.
Qed.

End FallbackShape.

(** *** [GET /health] *)

Section Health.

Context {S : Type} {q : Database.Queries S}.

(** X8.  The health route always answers, whatever the database does: the
    exception of [SELECT 1] is absorbed.  The answer holds only values its
    schema allows; [database] says "connected" exactly when [SELECT 1]
    returned, [llm] says "configured" exactly when [is_configured] holds,
    and [status] says "healthy" exactly when both do. *)
Theorem health_check_always_answers (svc : LLMService.LLMService) (s : S) :
  exists r,
    Routes.health_check svc s = (Ok r, snd (Database.execute_select_1 s))
    /\ Requests.HealthResponse_valid r = true
    /\ (Requests.database r = "connected"
        <-> is_ok (fst (Database.execute_select_1 s)) = true)
    /\ (Requests.llm r = "configured" <-> is_configured svc = true)
    /\ (Requests.status r = "healthy"
        <-> Requests.database r = "connected" /\ Requests.llm r = "configured").
Proof.
  unfold Routes.health_check, bind, try_except, ret.
  destruct (Database.execute_select_1 s) as [[[]|e] s1];
    destruct (is_configured svc); cbn [fst snd is_ok];
    eexists; (split; [reflexivity|]);
    cbn [Requests.status Requests.database Requests.llm];
    (split; [vm_compute; reflexivity|]);
    repeat split; intros; try reflexivity; try discriminate;
    try (destruct H; discriminate).
Qed.

(** X9.  The service the routes use is built by [LLMService()] when the
    module is loaded, and a service that was built is configured: the health
    route of a running application never reports "not_configured", and it
    reports "healthy" exactly when [SELECT 1] returned. *)
Theorem running_service_reports_llm_configured (settings : Settings)
    (svc : LLMService.LLMService) (s : S)
    (Hbuilt : __init__ settings = Ok svc) :
  exists r s',
    Routes.health_check svc s = (Ok r, s')
    /\ Requests.llm r = "configured"
    /\ (Requests.status r = "healthy"
        <-> exists s1, Database.execute_select_1 s = (Ok tt, s1)).
Proof.
  pose proof (constructed_is_configured settings svc Hbuilt) as Hconf.
  unfold Routes.health_check, bind, try_except, ret. rewrite Hconf.
  destruct (Database.execute_select_1 s) as [[[]|e] s1];
    do 2 eexists; (split; [reflexivity|]);
    cbn [Requests.status Requests.llm]; (split; [reflexivity|]).
  - split; [intros _; exists s1; reflexivity | intros _; reflexivity].
  - split; [intro H; discriminate H | intros [s2 H]; discriminate H].
Qed.

End Health.

Lemma running_service_reports_llm_configured_witness :
  exists r s',
    @Routes.health_check MemoryDb.Db MemoryDb.queries MoreFixtures.configured_service
      MoreFixtures.small_db = (Ok r, s')
    /\ Requests.llm r = "configured"
    /\ (Requests.status r = "healthy"
        <-> exists s1, @Database.execute_select_1 _ MemoryDb.queries MoreFixtures.small_db
                       = (Ok tt, s1)).
Proof.
  apply (@running_service_reports_llm_configured MemoryDb.Db MemoryDb.queries
           (settings_for "gpt-4" (Some "sk-test") None)).
  vm_compute. reflexivity.
Defined.

(** *** Listing the expenses of a user *)

Lemma insert_desc_perm (r : Database.StoredExpense) (l : list Database.StoredExpense) :
  Permutation (r :: l) (Database.insert_desc r l).
Proof.
  induction l as [|y rest IH]; cbn [Database.insert_desc]; [apply Permutation_refl|].
  destruct (Database.added_at y <=? Database.added_at r); [apply Permutation_refl|].
  eapply Permutation_trans; [apply perm_swap|]. apply perm_skip. exact IH.
Qed.

Lemma order_by_added_at_desc_perm (rows : list Database.StoredExpense) :
  Permutation rows (Database.order_by_added_at_desc rows).
Proof.
  induction rows as [|r rows IH]; [apply Permutation_refl|].
  cbn [Database.order_by_added_at_desc fold_right].
  eapply Permutation_trans; [apply perm_skip; exact IH|]. apply insert_desc_perm.
Qed.

Lemma insert_desc_sorted (r : Database.StoredExpense) (l : list Database.StoredExpense) :
  Checks.newest_first l -> Checks.newest_first (Database.insert_desc r l).
Proof.
  unfold Checks.newest_first.
  induction l as [|y rest IH]; intro Hs; cbn [Database.insert_desc].
  - constructor; constructor.
  - inversion Hs as [|? ? Hrest Hy]; subst.
    destruct (Z.leb_spec (Database.added_at y) (Database.added_at r)) as [Hle|Hgt].
    + constructor; [exact Hs|]. constructor; [exact Hle|].
      eapply Forall_impl; [|exact Hy]. cbn beta. intros b Hb. lia.
    + constructor; [apply IH; exact Hrest|].
      eapply Permutation_Forall; [apply insert_desc_perm|].
      constructor; [lia | exact Hy].
Qed.

Lemma order_by_added_at_desc_sorted (rows : list Database.StoredExpense) :
  Checks.newest_first (Database.order_by_added_at_desc rows).
Proof.
  induction rows as [|r rows IH]; [constructor|].
  cbn [Database.order_by_added_at_desc fold_right]. apply insert_desc_sorted. exact IH.
Qed.

Lemma In_firstn {A} (n : nat) (l : list A) (x : A) : In x (firstn n l) -> In x l.
Proof.
  intro H. rewrite <- (firstn_skipn n l). apply in_or_app. left. exact H.
Qed.

Lemma In_skipn_list {A} (n : nat) (l : list A) (x : A) : In x (skipn n l) -> In x l.
Proof.
  intro H. rewrite <- (firstn_skipn n l). apply in_or_app. right. exact H.
Qed.

Section Listing.

Context {S : Type} {q : Database.Queries S}.

(** X10.  A page of [get_user_expenses], for bounds that are not negative
    and a query that returned: the rows of the user, newest first, fall
    into the rows skipped, the page and the rows cut off, in this order;
    [offset] rows are skipped, or all if there are fewer, and the page has
    [limit] rows, or all that remain if there are fewer.  So a page never
    has more than [limit] rows and never a row of another user. *)
Theorem get_user_expenses_page (user_id limit offset : Z) (s s' : S)
    (rows : list Database.StoredExpense)
    (Hlimit : 0 <= limit) (Hoffset : 0 <= offset)
    (Hquery : Database.query_expenses s = (Ok rows, s')) :
  exists skipped page cut,
    ExpenseQueries.get_user_expenses user_id limit offset s = (Ok page, s')
    /\ Permutation (Database.filter_user_id user_id rows) (skipped ++ page ++ cut)%list
    /\ Checks.newest_first (skipped ++ page ++ cut)%list
    /\ Z.of_nat (List.length skipped)
       = Z.min offset (Z.of_nat (List.length (Database.filter_user_id user_id rows)))
    /\ Z.of_nat (List.length page)
       = Z.min limit (Z.of_nat (List.length (Database.filter_user_id user_id rows))
                      - Z.of_nat (List.length skipped))
    /\ (forall r, In r page ->
          In r rows /\ Models.user_id (Database.expense r) = user_id).
Proof.
  set (mine := Database.filter_user_id user_id rows).
  set (sorted := Database.order_by_added_at_desc mine).
  assert (Hperm : Permutation mine sorted) by apply order_by_added_at_desc_perm.
  assert (Hsplit : sorted = (firstn (Z.to_nat offset) sorted
                             ++ firstn (Z.to_nat limit) (skipn (Z.to_nat offset) sorted)
                             ++ skipn (Z.to_nat limit) (skipn (Z.to_nat offset) sorted))%list).
  { rewrite (firstn_skipn (Z.to_nat limit)). rewrite firstn_skipn. reflexivity. }
  exists (firstn (Z.to_nat offset) sorted),
         (firstn (Z.to_nat limit) (skipn (Z.to_nat offset) sorted)),
         (skipn (Z.to_nat limit) (skipn (Z.to_nat offset) sorted)).
  rewrite <- Hsplit.
  split; [|split; [exact Hperm|split; [apply order_by_added_at_desc_sorted|]]].
  - unfold ExpenseQueries.get_user_expenses.
    destruct (Z.ltb_spec limit 0) as [Hneg|_]; [lia|].
    destruct (Z.ltb_spec offset 0) as [Hneg|_]; [lia|].
    unfold bind, ret. rewrite Hquery. reflexivity.
  - rewrite !length_firstn, length_skipn, (Permutation_length Hperm).
    split; [lia|]. split; [lia|].
    intros r Hin.
    apply In_firstn in Hin. apply In_skipn_list in Hin.
    apply (Permutation_in _ (Permutation_sym Hperm)) in Hin.
    unfold mine, Database.filter_user_id in Hin. apply filter_In in Hin.
    destruct Hin as [Hin Huser]. split; [exact Hin | apply Z.eqb_eq; exact Huser].
Qed.

End Listing.

Lemma get_user_expenses_page_witness :
  exists skipped page cut,
    @ExpenseQueries.get_user_expenses _ MemoryDb.queries 1 2 1 MoreFixtures.small_db
    = (Ok page, MoreFixtures.small_db)
    /\ Permutation (Database.filter_user_id 1 (MemoryDb.expenses MoreFixtures.small_db))
         (skipped ++ page ++ cut)%list
    /\ Checks.newest_first (skipped ++ page ++ cut)%list
    /\ Z.of_nat (List.length skipped) = 1
    /\ Z.of_nat (List.length page) = 2.
Proof.
  destruct (@get_user_expenses_page _ MemoryDb.queries 1 2 1 MoreFixtures.small_db
              MoreFixtures.small_db (MemoryDb.expenses MoreFixtures.small_db)
              ltac:(lia) ltac:(lia) eq_refl)
    as (skipped & page & cut & Hrun & Hperm & Hsorted & Hskipped & Hpage & _).
  exists skipped, page, cut.
  split; [exact Hrun|]. split; [exact Hperm|]. split; [exact Hsorted|].
  split; [exact Hskipped|].
  rewrite Hpage.
  replace (Z.of_nat (List.length skipped)) with 1 by (symmetry; exact Hskipped).
  reflexivity.
Defined.

(** *** [GET /users/{telegram_id}/expenses] *)

(** [str(n)] and [float(d)] as CPython computes them. *)
Example str_and_float_known_values :
  Routes.str_of_int 123456789 = "123456789"
  /\ Routes.str_of_int 0 = "0"
  /\ Routes.str_of_int (-5) = "-5"
  /\ Routes.float_of_Decimal (DecFinite false 200 (-1)) = 20.0%float
  /\ Routes.float_of_Decimal (DecFinite false 1 (-2)) = 0.01%float
  /\ Routes.float_of_Decimal (DecFinite false 1999 (-2)) = 19.99%float
  /\ Routes.float_of_Decimal (DecFinite false 1 2) = 100.0%float
  /\ Routes.float_of_Decimal (Decimal_of_str_float 0.1) = 0.1%float.
Proof. vm_compute. repeat split; reflexivity. Qed.

Lemma page_length (user_id limit offset : Z) (rows : list Database.StoredExpense) :
  0 <= limit -> 0 <= offset ->
  Z.of_nat (List.length
              (Database.limit_offset limit offset
                 (Database.order_by_added_at_desc (Database.filter_user_id user_id rows))))
  = Z.min limit
      (Z.max 0 (Z.of_nat (List.length (Database.filter_user_id user_id rows)) - offset)).
Proof.
  intros Hlimit Hoffset. unfold Database.limit_offset.
  rewrite length_firstn, length_skipn.
  rewrite <- (Permutation_length
                (order_by_added_at_desc_perm (Database.filter_user_id user_id rows))).
  lia.
Qed.

Section ListingRoute.

Context {S : Type} {q : Database.Queries S}.
Variable isoformat : Z -> string.

(** X11.  The listing route, for bounds that are not negative and queries
    that return.  A telegram id without a user row is answered with status
    404 and "User not found", and the expenses are not queried.  For a
    known user the body repeats the telegram id and lists one item per row
    of the page; [total_expenses] is the number of items listed, at most
    [limit], and not the number of expenses the user has. *)
Theorem listing_route_counts_the_page (telegram_id : string) (limit offset : Z)
    (s s1 : S) (users : list Database.User)
    (Hlimit : 0 <= limit) (Hoffset : 0 <= offset)
    (Husers : Database.query_users s = (Ok users, s1)) :
  match Database.first_by_telegram_id telegram_id users with
  | None =>
      Routes.get_user_expenses isoformat telegram_id limit offset s
      = (Ok (Routes.HTTPException 404 "User not found"), s1)
  | Some user =>
      forall (rows : list Database.StoredExpense) (s2 : S),
        Database.query_expenses s1 = (Ok rows, s2) ->
        exists body,
          Routes.get_user_expenses isoformat telegram_id limit offset s
          = (Ok (Routes.Reply body), s2)
          /\ Routes.body_telegram_id body = telegram_id
          /\ Routes.total_expenses body = Z.of_nat (List.length (Routes.expenses body))
          /\ Routes.total_expenses body
             = Z.min limit
                 (Z.max 0 (Z.of_nat (List.length
                                       (Database.filter_user_id (Database.id user) rows))
                           - offset))
  end.
Proof.
  unfold Routes.get_user_expenses, ExpenseQueries.get_user_by_telegram_id, bind, ret.
  rewrite Husers.
  destruct (Database.first_by_telegram_id telegram_id users) as [user|]; [|reflexivity].
  intros rows s2 Hrows.
  unfold ExpenseQueries.get_user_expenses, bind, ret.
  destruct (Z.ltb_spec limit 0) as [Hneg|_]; [lia|].
  destruct (Z.ltb_spec offset 0) as [Hneg|_]; [lia|].
  rewrite Hrows. eexists. split; [reflexivity|].
  cbn [Routes.body_telegram_id Routes.total_expenses Routes.expenses].
  split; [reflexivity|]. split; [rewrite length_map; reflexivity|].
  apply page_length; assumption.
Qed.

End ListingRoute.

Lemma listing_route_counts_the_page_witness :
  exists body,
    @Routes.get_user_expenses _ MemoryDb.queries (fun t => Routes.str_of_int t) "7" 2 0
      MoreFixtures.small_db
    = (Ok (Routes.Reply body), MoreFixtures.small_db)
    /\ Routes.total_expenses body = 2
    /\ List.length (Database.filter_user_id 1 (MemoryDb.expenses MoreFixtures.small_db))
       = 3%nat.
Proof.
  pose proof (@listing_route_counts_the_page _ MemoryDb.queries
                (fun t => Routes.str_of_int t) "7" 2 0
                MoreFixtures.small_db MoreFixtures.small_db
                (MemoryDb.users MoreFixtures.small_db)
                ltac:(lia) ltac:(lia) eq_refl) as H.
  cbn in H.
  destruct (H (MemoryDb.expenses MoreFixtures.small_db) MoreFixtures.small_db eq_refl)
    as (body & Hrun & _ & _ & Htotal).
  exists body. split; [exact Hrun|]. split; [exact Htotal | reflexivity].
Defined.

(** *** [POST /process] *)

Section ProcessRoute.

Context {S : Type} {db : Models.Session S} {q : Database.Queries S}.
Variable extract : string -> res ExpenseExtraction.

(** X12.  The route never lets an exception escape, and it answers with
    status 500 only when looking the user up, or creating the missing user,
    raised.  Once there is a user row the answer is the response of
    [ExpenseService.process_message] for the numeric id of that row, with
    status 200: a failure of the language model or of the expense store
    reaches the client as [success = false], not as an error status. *)
Theorem process_route_500_only_from_the_user_step
    (request : Requests.MessageRequest) (s : S) :
  let telegram_id := Routes.str_of_int (Requests.user_id request) in
  let served (user : Database.User) (s1 : S) :=
    exists response s2,
      ExpenseService.process_message extract (Database.id user)
        (Requests.message request) s1 = (Ok response, s2)
      /\ Routes.process_message extract request s = (Ok (Routes.Reply response), s2) in
  let failed (s1 : S) :=
    Routes.process_message extract request s
    = (Ok (Routes.HTTPException 500 "Internal server error processing message"), s1) in
  match ExpenseQueries.get_user_by_telegram_id telegram_id s with
  | (Err _, s1) => failed s1
  | (Ok (Some user), s1) => served user s1
  | (Ok None, s1) =>
      match ExpenseQueries.create_user telegram_id s1 with
      | (Err _, s2) => failed s2
      | (Ok user, s2) => served user s2
      end
  end.
Proof.
  cbv zeta.
  assert (Hserved : forall user s1,
            exists response s2,
              ExpenseService.process_message extract (Database.id user)
                (Requests.message request) s1 = (Ok response, s2)).
  { intros user s1.
    destruct (process_message_cases extract (Database.id user)
                (Requests.message request) s1)
      as [(x & _ & H)|[(e & _ & _ & H)|[(e & _ & _ & _ & H)
         |(e & d & a & c & _ & _ & _ & _ & _ & _ &
           [(x & _ & H)|[(ec & x & s2 & _ & _ & H)|(ec & ex & s2 & _ & _ & H)]])]]];
      rewrite H; eauto. }
  unfold Routes.process_message, try_except, bind, ret. cbv beta.
  destruct (ExpenseQueries.get_user_by_telegram_id
              (Routes.str_of_int (Requests.user_id request)) s) as [[[user|]|e] s1];
    [| |reflexivity].
  - destruct (Hserved user s1) as (response & s2 & Hrun). rewrite Hrun.
    exists response, s2. split; reflexivity.
  - destruct (ExpenseQueries.create_user
                (Routes.str_of_int (Requests.user_id request)) s1) as [[user|e] s2];
      [|reflexivity].
    destruct (Hserved user s2) as (response & s3 & Hrun). rewrite Hrun.
    exists response, s3. split; reflexivity.
Qed.

End ProcessRoute.

(** *** Users in the in-memory database *)

Lemma unknown_not_taken (t : string) (users : list Database.User) :
  Database.first_by_telegram_id t users = None ->
  existsb (String.eqb t) (map Database.telegram_id users) = false.
Proof.
  unfold Database.first_by_telegram_id.
  induction users as [|u users IH]; cbn [List.find map existsb]; [reflexivity|].
  destruct (String.eqb (Database.telegram_id u) t) eqn:E; [discriminate|].
  intro H. rewrite String.eqb_sym, E. cbn [orb]. apply IH, H.
Qed.

Lemma known_taken (t : string) (users : list Database.User) (u : Database.User) :
  Database.first_by_telegram_id t users = Some u ->
  existsb (String.eqb t) (map Database.telegram_id users) = true
  /\ Database.telegram_id u = t /\ In u users.
Proof.
  unfold Database.first_by_telegram_id.
  induction users as [|v users IH]; cbn [List.find map existsb]; [discriminate|].
  destruct (String.eqb (Database.telegram_id v) t) eqn:E.
  - intro H. injection H as <-. rewrite String.eqb_sym, E.
    split; [reflexivity|]. split; [apply String.eqb_eq; exact E | left; reflexivity].
  - intro H. destruct (IH H) as (Hex & Ht & Hin).
    rewrite Hex, orb_true_r. split; [reflexivity|]. split; [exact Ht | right; exact Hin].
Qed.

Lemma first_by_telegram_id_app (t : string) (users : list Database.User)
    (new : Database.User) :
  Database.first_by_telegram_id t (users ++ [new])
  = match Database.first_by_telegram_id t users with
    | Some u => Some u
    | None => if String.eqb (Database.telegram_id new) t then Some new else None
    end.
Proof.
  unfold Database.first_by_telegram_id.
  induction users as [|v users IH]; cbn [List.find app]; [reflexivity|].
  destruct (String.eqb (Database.telegram_id v) t); [reflexivity | exact IH].
Qed.

Lemma not_taken_not_in (t : string) (taken : list string) :
  existsb (String.eqb t) taken = false -> ~ In t taken.
Proof.
  intros H Hin.
  assert (Htrue : existsb (String.eqb t) taken = true)
    by (apply existsb_exists; exists t; split; [exact Hin | apply String.eqb_refl]).
  congruence.
Qed.

Lemma small_db_at_rest : MemoryDb.consistent MoreFixtures.small_db.
Proof.
  unfold MemoryDb.consistent. cbn.
  split; [reflexivity|]. split; [reflexivity|].
  split; [repeat constructor; intros []|].
  split; repeat constructor. intros [].
Qed.

Lemma create_user_fresh (t : string) (d : MemoryDb.Db) :
  MemoryDb.consistent d ->
  Database.first_by_telegram_id t (MemoryDb.users d) = None ->
  exists d1,
    @ExpenseQueries.create_user _ MemoryDb.session MemoryDb.queries t d
    = (Ok {| Database.id := MemoryDb.next_user_id d; Database.telegram_id := t |}, d1)
    /\ MemoryDb.users d1
       = (MemoryDb.users d
          ++ [{| Database.id := MemoryDb.next_user_id d; Database.telegram_id := t |}])%list
    /\ MemoryDb.expenses d1 = MemoryDb.expenses d
    /\ MemoryDb.consistent d1.
Proof.
  intros (Hpu & Hpe & Hnodup & Hids & Hkeys) Hnone.
  pose proof (unknown_not_taken t _ Hnone) as Hfree.
  unfold ExpenseQueries.create_user, bind, ret.
  cbn [Database.add_user Models.commit Database.refresh_user
       MemoryDb.session MemoryDb.queries].
  unfold MemoryDb.db_add_user, MemoryDb.db_commit, MemoryDb.db_refresh_user.
  cbn [MemoryDb.users MemoryDb.expenses MemoryDb.pending_users MemoryDb.pending_expenses
       MemoryDb.next_user_id MemoryDb.next_expense_id MemoryDb.now].
  rewrite Hpu, Hpe.
  cbn [app MemoryDb.violates_unique MemoryDb.new_users Models.assign_ids MemoryDb.stamp
       map List.length].
  rewrite Hfree. cbn [orb].
  cbn [MemoryDb.users].
  rewrite first_by_telegram_id_app, Hnone. cbn [Database.telegram_id].
  rewrite String.eqb_refl.
  eexists. split; [reflexivity|].
  cbn [MemoryDb.users MemoryDb.expenses MemoryDb.pending_users MemoryDb.pending_expenses
       MemoryDb.next_user_id].
  split; [reflexivity|]. split; [apply app_nil_r|].
  unfold MemoryDb.consistent.
  cbn [MemoryDb.users MemoryDb.expenses MemoryDb.pending_users MemoryDb.pending_expenses
       MemoryDb.next_user_id].
  split; [reflexivity|]. split; [reflexivity|]. split.
  - rewrite map_app. cbn [map Database.telegram_id].
    apply NoDup_app; [exact Hnodup | repeat constructor; intros [] |].
    intros x Hx [Hx'|[]]. subst x.
    exact (not_taken_not_in _ _ Hfree Hx).
  - split.
    + apply Forall_app. split.
      * eapply Forall_impl; [|exact Hids]. cbn beta. intros u Hu. lia.
      * constructor; [cbn [Database.id]; lia | constructor].
    + rewrite map_app. cbn [map Database.id].
      apply NoDup_app; [exact Hkeys | repeat constructor; intros [] |].
      intros x Hx [Hx'|[]]. subst x.
      apply in_map_iff in Hx. destruct Hx as (u & Hu & Hin).
      rewrite Forall_forall in Hids. specialize (Hids u Hin). lia.
Qed.

Lemma create_expense_keeps_users (ec : ExpenseCreate) (d d1 : MemoryDb.Db)
    (r : res Models.Expense) :
  MemoryDb.consistent d ->
  @ExpenseService.create_expense _ MemoryDb.session ec d = (r, d1) ->
  MemoryDb.users d1 = MemoryDb.users d
  /\ MemoryDb.next_user_id d1 = MemoryDb.next_user_id d
  /\ MemoryDb.consistent d1.
Proof.
  intros (Hpu & Hpe & Hnodup & Hids & Hkeys).
  unfold ExpenseService.create_expense, bind, ret.
  cbn [Models.add Models.commit Models.refresh MemoryDb.session].
  unfold MemoryDb.db_add, MemoryDb.db_commit, MemoryDb.db_refresh.
  cbn [MemoryDb.users MemoryDb.expenses MemoryDb.pending_users MemoryDb.pending_expenses
       MemoryDb.next_user_id MemoryDb.next_expense_id MemoryDb.now].
  rewrite Hpu, Hpe.
  cbn [app MemoryDb.violates_unique MemoryDb.new_users List.length].
  match goal with
  | |- context [List.find ?f ?l] => destruct (List.find f l)
  end;
    intro H; injection H as <- <-;
    unfold MemoryDb.consistent;
    cbn [MemoryDb.users MemoryDb.expenses MemoryDb.pending_users MemoryDb.pending_expenses
         MemoryDb.next_user_id];
    rewrite app_nil_r, Z.add_0_r; repeat split; assumption.
Qed.

Lemma service_keeps_users (extract : string -> res ExpenseExtraction)
    (user_id : Z) (text : string) (d : MemoryDb.Db) :
  MemoryDb.consistent d ->
  exists response d',
    @ExpenseService.process_message _ MemoryDb.session extract user_id text d
    = (Ok response, d')
    /\ MemoryDb.users d' = MemoryDb.users d
    /\ MemoryDb.next_user_id d' = MemoryDb.next_user_id d
    /\ MemoryDb.consistent d'.
Proof.
  intro Hcons.
  destruct (@process_message_cases _ MemoryDb.session extract user_id text d)
    as [(x & _ & H)|[(e & _ & _ & H)|[(e & _ & _ & _ & H)
       |(e & dd & a & c & _ & _ & _ & _ & _ & _ &
         [(x & _ & H)|[(ec & x & s2 & _ & Hce & H)|(ec & ex & s2 & _ & Hce & H)]])]]];
    rewrite H; do 2 eexists; (split; [reflexivity|]);
    first [ exact (create_expense_keeps_users _ _ _ _ Hcons Hce)
          | split; [reflexivity | split; [reflexivity | exact Hcons]] ].
Qed.

(** The run of the route on a database at rest: the lookup, the user
    created when there is none, and the service call. *)
Lemma route_on_rest (extract : string -> res ExpenseExtraction)
    (request : Requests.MessageRequest) (d : MemoryDb.Db) :
  MemoryDb.consistent d ->
  exists response d',
    @Routes.process_message _ MemoryDb.session MemoryDb.queries extract request d
    = (Ok (Routes.Reply response), d')
    /\ MemoryDb.consistent d'
    /\ MemoryDb.users d'
       = match Database.first_by_telegram_id
                 (Routes.str_of_int (Requests.user_id request)) (MemoryDb.users d) with
         | Some _ => MemoryDb.users d
         | None =>
             (MemoryDb.users d
              ++ [{| Database.id := MemoryDb.next_user_id d;
                     Database.telegram_id :=
                       Routes.str_of_int (Requests.user_id request) |}])%list
         end.
Proof.
  intro Hrest.
  set (t := Routes.str_of_int (Requests.user_id request)).
  unfold Routes.process_message, try_except. fold t.
  unfold bind at 1. unfold ExpenseQueries.get_user_by_telegram_id at 1.
  unfold bind at 1. cbn [Database.query_users MemoryDb.queries]. unfold ret at 1.
  destruct (Database.first_by_telegram_id t (MemoryDb.users d)) as [found|] eqn:Hlookup.
  - unfold bind, ret.
    destruct (service_keeps_users extract (Database.id found) (Requests.message request) d
                Hrest) as (response & d' & Hrun & Husers & _ & Hrest').
    rewrite Hrun. exists response, d'.
    split; [reflexivity|]. split; [exact Hrest' | exact Husers].
  - unfold bind at 1.
    destruct (create_user_fresh t d Hrest Hlookup) as (d1 & Hcreate & Husers1 & _ & Hrest1).
    rewrite Hcreate. unfold bind, ret.
    destruct (service_keeps_users extract
                (Database.id {| Database.id := MemoryDb.next_user_id d;
                                Database.telegram_id := t |})
                (Requests.message request) d1 Hrest1)
      as (response & d' & Hrun & Husers & _ & Hrest').
    rewrite Hrun. exists response, d'.
    split; [reflexivity|]. split; [exact Hrest'|]. rewrite Husers. exact Husers1.
Qed.

(** The user a lookup finds once a missing row has been appended. *)
Lemma found_after_registration (t : string) (next : Z) (users users' : list Database.User) :
  users' = match Database.first_by_telegram_id t users with
           | Some _ => users
           | None => (users ++ [{| Database.id := next; Database.telegram_id := t |}])%list
           end ->
  exists user,
    Database.first_by_telegram_id t users' = Some user
    /\ Database.telegram_id user = t
    /\ match Database.first_by_telegram_id t users with
       | Some found => user = found
       | None => user = {| Database.id := next; Database.telegram_id := t |}
       end.
Proof.
  intros ->.
  destruct (Database.first_by_telegram_id t users) as [found|] eqn:Hlookup.
  - exists found. split; [exact Hlookup|].
    split; [apply (known_taken _ _ _ Hlookup) | reflexivity].
  - exists {| Database.id := next; Database.telegram_id := t |}.
    rewrite first_by_telegram_id_app, Hlookup. cbn [Database.telegram_id].
    rewrite String.eqb_refl. repeat split.
Qed.

(** X13.  On a database at rest -- nothing pending, telegram ids and user
    ids unique -- the route serves every request with status 200 and leaves
    the database at rest.  The first message of a Telegram user adds exactly
    one user row, with the next free id and the decimal text of the Telegram
    id; every later message finds that row and adds none. *)
Theorem route_registers_each_user_once (extract : string -> res ExpenseExtraction)
    (request : Requests.MessageRequest) (d : MemoryDb.Db)
    (Hrest : MemoryDb.consistent d) :
  exists user response d',
    @Routes.process_message _ MemoryDb.session MemoryDb.queries extract request d
    = (Ok (Routes.Reply response), d')
    /\ MemoryDb.consistent d'
    /\ Database.first_by_telegram_id (Routes.str_of_int (Requests.user_id request))
         (MemoryDb.users d') = Some user
    /\ Database.telegram_id user = Routes.str_of_int (Requests.user_id request)
    /\ match Database.first_by_telegram_id (Routes.str_of_int (Requests.user_id request))
               (MemoryDb.users d) with
       | Some found => user = found /\ MemoryDb.users d' = MemoryDb.users d
       | None =>
           Database.id user = MemoryDb.next_user_id d
           /\ MemoryDb.users d' = (MemoryDb.users d ++ [user])%list
       end.
Proof.
  destruct (route_on_rest extract request d Hrest) as (response & d' & Hrun & Hrest' & Husers).
  destruct (found_after_registration _ (MemoryDb.next_user_id d) _ _ Husers)
    as (user & Hfound & Ht & Hwho).
  exists user, response, d'.
  split; [exact Hrun|]. split; [exact Hrest'|]. split; [exact Hfound|].
  split; [exact Ht|].
  destruct (Database.first_by_telegram_id (Routes.str_of_int (Requests.user_id request))
              (MemoryDb.users d)) as [found|].
  - split; [exact Hwho | exact Husers].
  - subst user. split; [reflexivity | exact Husers].
Qed.

Lemma route_registers_each_user_once_witness :
  exists user response d',
    @Routes.process_message _ MemoryDb.session MemoryDb.queries
      (fun _ => Ok hello) {| Requests.user_id := 42; Requests.message := "hi" |}
      MoreFixtures.small_db
    = (Ok (Routes.Reply response), d')
    /\ MemoryDb.users d' = (MemoryDb.users MoreFixtures.small_db ++ [user])%list
    /\ Database.id user = 3
    /\ Database.telegram_id user = "42".
Proof.
  pose proof small_db_at_rest as Hrest.
  destruct (route_registers_each_user_once (fun _ => Ok hello)
              {| Requests.user_id := 42; Requests.message := "hi" |}
              MoreFixtures.small_db Hrest)
    as (user & response & d' & Hrun & _ & _ & Ht & Hcase).
  exists user, response, d'.
  split; [exact Hrun|].
  destruct Hcase as [Hid Husers].
  split; [exact Husers|]. split; [exact Hid | exact Ht].
Defined.

(** X14.  [create_user] and [user_exists] on a database at rest.  For a
    telegram id that is not in the table, [user_exists] says no and
    [create_user] returns a user with that telegram id and the next free
    id; afterwards [user_exists] says yes, [get_user_by_telegram_id] finds
    the user returned, and the answers for every other telegram id are as
    before.  For a telegram id that is in the table, [user_exists] says
    yes and [create_user] raises on the unique index instead of adding a
    second row. *)
Theorem create_user_whitelists_once (t : string) (d : MemoryDb.Db)
    (Hrest : MemoryDb.consistent d) :
  match Database.first_by_telegram_id t (MemoryDb.users d) with
  | None =>
      @ExpenseQueries.user_exists _ MemoryDb.queries t d = (Ok false, d)
      /\ exists user d1,
           @ExpenseQueries.create_user _ MemoryDb.session MemoryDb.queries t d
           = (Ok user, d1)
           /\ Database.telegram_id user = t
           /\ Database.id user = MemoryDb.next_user_id d
           /\ @ExpenseQueries.user_exists _ MemoryDb.queries t d1 = (Ok true, d1)
           /\ @ExpenseQueries.get_user_by_telegram_id _ MemoryDb.queries t d1
              = (Ok (Some user), d1)
           /\ (forall t', t' <> t ->
                 fst (@ExpenseQueries.get_user_by_telegram_id _ MemoryDb.queries t' d1)
                 = fst (@ExpenseQueries.get_user_by_telegram_id _ MemoryDb.queries t' d))
           /\ MemoryDb.consistent d1
  | Some _ =>
      @ExpenseQueries.user_exists _ MemoryDb.queries t d = (Ok true, d)
      /\ exists e d1,
           @ExpenseQueries.create_user _ MemoryDb.session MemoryDb.queries t d
           = (Err e, d1)
           /\ MemoryDb.users d1 = MemoryDb.users d
  end.
Proof.
  destruct (Database.first_by_telegram_id t (MemoryDb.users d)) as [found|] eqn:Hlookup.
  - split.
    + unfold ExpenseQueries.user_exists, bind, ret.
      cbn [Database.query_users MemoryDb.queries]. rewrite Hlookup. reflexivity.
    + destruct Hrest as (Hpu & Hpe & _ & _).
      destruct (known_taken _ _ _ Hlookup) as (Htaken & _ & _).
      unfold ExpenseQueries.create_user, bind, ret.
      cbn [Database.add_user Models.commit Database.refresh_user
           MemoryDb.session MemoryDb.queries].
      unfold MemoryDb.db_add_user, MemoryDb.db_commit.
      cbn [MemoryDb.users MemoryDb.expenses MemoryDb.pending_users
           MemoryDb.pending_expenses MemoryDb.next_user_id MemoryDb.next_expense_id
           MemoryDb.now].
      rewrite Hpu. cbn [app MemoryDb.violates_unique]. rewrite Htaken. cbn [orb].
      do 2 eexists. split; reflexivity.
  - split.
    + unfold ExpenseQueries.user_exists, bind, ret.
      cbn [Database.query_users MemoryDb.queries]. rewrite Hlookup. reflexivity.
    + destruct (create_user_fresh t d Hrest Hlookup)
        as (d1 & Hcreate & Husers & _ & Hrest1).
      exists {| Database.id := MemoryDb.next_user_id d; Database.telegram_id := t |}, d1.
      split; [exact Hcreate|]. split; [reflexivity|]. split; [reflexivity|].
      assert (Hfound : Database.first_by_telegram_id t (MemoryDb.users d1)
                       = Some {| Database.id := MemoryDb.next_user_id d;
                                 Database.telegram_id := t |}).
      { rewrite Husers, first_by_telegram_id_app, Hlookup. cbn [Database.telegram_id].
        rewrite String.eqb_refl. reflexivity. }
      unfold ExpenseQueries.user_exists, ExpenseQueries.get_user_by_telegram_id, bind, ret.
      cbn [Database.query_users MemoryDb.queries fst].
      rewrite Hfound. split; [reflexivity|]. split; [reflexivity|].
      split; [|exact Hrest1].
      intros t' Hne. rewrite Husers, first_by_telegram_id_app. cbn [Database.telegram_id].
      destruct (String.eqb_spec t t') as [Heq|_]; [congruence|].
      destruct (Database.first_by_telegram_id t' (MemoryDb.users d)); reflexivity.
Qed.

Lemma create_user_whitelists_once_witness :
  @ExpenseQueries.user_exists _ MemoryDb.queries "7" MoreFixtures.small_db
  = (Ok true, MoreFixtures.small_db)
  /\ exists e d1,
       @ExpenseQueries.create_user _ MemoryDb.session MemoryDb.queries "7"
         MoreFixtures.small_db = (Err e, d1)
       /\ MemoryDb.users d1 = MemoryDb.users MoreFixtures.small_db.
Proof.
  pose proof small_db_at_rest as Hrest.
  exact (create_user_whitelists_once "7" MoreFixtures.small_db Hrest).
Defined.

(** *** Telegram ids as texts *)

Lemma str_of_int_inj (a b : Z) : Routes.str_of_int a = Routes.str_of_int b -> a = b.
Proof.
  unfold Routes.str_of_int. intro H.
  assert (Hnonnil : forall z, Z.to_int z <> Decimal.Pos Decimal.Nil
                              /\ Z.to_int z <> Decimal.Neg Decimal.Nil).
  { intros [|p|p]; cbn [Z.to_int]; split; try discriminate;
      intro E; injection E as E; exact (DecimalPos.Unsigned.to_uint_nonnil p E). }
  apply (f_equal DecimalString.NilZero.int_of_string) in H.
  rewrite !DecimalString.NilZero.isi in H by apply Hnonnil.
  injection H as H.
  rewrite <- (DecimalZ.of_to a), <- (DecimalZ.of_to b), H. reflexivity.
Qed.

Lemma same_key_same_row {A B} (f : A -> B) (l : list A) (a b : A) :
  NoDup (map f l) -> In a l -> In b l -> f a = f b -> a = b.
Proof.
  induction l as [|x l IH]; intros Hnd Ha Hb Hf; [destruct Ha|].
  cbn [map] in Hnd. inversion Hnd as [|? ? Hnotin Hnd']; subst.
  destruct Ha as [<-|Ha]; destruct Hb as [<-|Hb].
  - reflexivity.
  - exfalso. apply Hnotin. rewrite Hf. apply in_map. exact Hb.
  - exfalso. apply Hnotin. rewrite <- Hf. apply in_map. exact Ha.
  - apply IH; assumption.
Qed.

(** X15.  Messages of two different Telegram users are never booked on the
    same user row: on a database at rest, after the route has served a
    request of each, both senders have a user row, and the two rows have
    different ids. *)
Theorem distinct_senders_get_distinct_rows (extract : string -> res ExpenseExtraction)
    (request1 request2 : Requests.MessageRequest) (d : MemoryDb.Db)
    (Hrest : MemoryDb.consistent d)
    (Hdistinct : Requests.user_id request1 <> Requests.user_id request2) :
  exists response1 d1 response2 d2 user1 user2,
    @Routes.process_message _ MemoryDb.session MemoryDb.queries extract request1 d
    = (Ok (Routes.Reply response1), d1)
    /\ @Routes.process_message _ MemoryDb.session MemoryDb.queries extract request2 d1
       = (Ok (Routes.Reply response2), d2)
    /\ Database.first_by_telegram_id (Routes.str_of_int (Requests.user_id request1))
         (MemoryDb.users d2) = Some user1
    /\ Database.first_by_telegram_id (Routes.str_of_int (Requests.user_id request2))
         (MemoryDb.users d2) = Some user2
    /\ Database.id user1 <> Database.id user2.
Proof.
  destruct (route_on_rest extract request1 d Hrest)
    as (response1 & d1 & Hrun1 & Hrest1 & Husers1).
  destruct (found_after_registration _ (MemoryDb.next_user_id d) _ _ Husers1)
    as (user1 & Hfound1 & Ht1 & _).
  destruct (route_on_rest extract request2 d1 Hrest1)
    as (response2 & d2 & Hrun2 & Hrest2 & Husers2).
  destruct (found_after_registration _ (MemoryDb.next_user_id d1) _ _ Husers2)
    as (user2 & Hfound2 & Ht2 & _).
  exists response1, d1, response2, d2, user1, user2.
  assert (Hfound1' : Database.first_by_telegram_id
                       (Routes.str_of_int (Requests.user_id request1)) (MemoryDb.users d2)
                     = Some user1).
  { rewrite Husers2.
    destruct (Database.first_by_telegram_id
                (Routes.str_of_int (Requests.user_id request2)) (MemoryDb.users d1))
      as [found|].
    - exact Hfound1.
    - rewrite first_by_telegram_id_app, Hfound1. reflexivity. }
  split; [exact Hrun1|]. split; [exact Hrun2|]. split; [exact Hfound1'|].
  split; [exact Hfound2|].
  intro Hid.
  destruct Hrest2 as (_ & _ & _ & _ & Hkeys).
  assert (Hsame : user1 = user2).
  { apply (same_key_same_row Database.id (MemoryDb.users d2)); try assumption.
    - apply (known_taken _ _ _ Hfound1').
    - apply (known_taken _ _ _ Hfound2). }
  apply Hdistinct, str_of_int_inj. rewrite <- Ht1, <- Ht2, Hsame. reflexivity.
Qed.

Lemma distinct_senders_get_distinct_rows_witness :
  exists response1 d1 response2 d2 user1 user2,
    @Routes.process_message _ MemoryDb.session MemoryDb.queries (fun _ => Ok hello)
      {| Requests.user_id := 7; Requests.message := "hi" |} MoreFixtures.small_db
    = (Ok (Routes.Reply response1), d1)
    /\ @Routes.process_message _ MemoryDb.session MemoryDb.queries (fun _ => Ok hello)
         {| Requests.user_id := 42; Requests.message := "hi" |} d1
       = (Ok (Routes.Reply response2), d2)
    /\ Database.first_by_telegram_id "7" (MemoryDb.users d2) = Some user1
    /\ Database.first_by_telegram_id "42" (MemoryDb.users d2) = Some user2
    /\ Database.id user1 <> Database.id user2.
Proof.
  apply (distinct_senders_get_distinct_rows (fun _ => Ok hello)
           {| Requests.user_id := 7; Requests.message := "hi" |}
           {| Requests.user_id := 42; Requests.message := "hi" |}
           MoreFixtures.small_db small_db_at_rest).
  cbn [Requests.user_id]. lia.
Defined.

(** *** Validation of the request body *)

Section RequestValidation.

Context {S : Type} {db : Models.Session S} {q : Database.Queries S}.
Variable extract : string -> res ExpenseExtraction.

(** X16.  A body reaches the handler of [POST /process] exactly when its
    [user_id] is positive and its message has 1 to 500 characters (code
    points, not bytes).  Every other body is answered by the framework with
    a validation error that names exactly the offending fields; neither the
    database nor the language model is touched. *)
Theorem invalid_request_never_reaches_the_handler (user_id : Z) (message : string) (s : S) :
  if (0 <? user_id) && (1 <=? py_len message) && (py_len message <=? 500)
  then
    Routes.post_process extract user_id message s
    = Routes.process_message extract
        {| Requests.user_id := user_id; Requests.message := message |} s
  else
    exists fields,
      Routes.post_process extract user_id message s
      = (Ok (Routes.RequestValidationError fields), s)
      /\ (In "user_id" fields <-> user_id <= 0)
      /\ (In "message" fields <-> py_len message < 1 \/ 500 < py_len message)
      /\ forall other : string -> res ExpenseExtraction,
           Routes.post_process other user_id message s
           = Routes.post_process extract user_id message s.
Proof.
  unfold Routes.post_process, Requests.MessageRequest_new.
  destruct (Z.ltb_spec 0 user_id) as [Hu|Hu];
    destruct (Z.leb_spec 1 (py_len message)) as [Hlo|Hlo];
    destruct (Z.leb_spec (py_len message) 500) as [Hhi|Hhi];
    cbn [andb app]; try reflexivity;
    eexists; (split; [reflexivity|]);
    (split; [|split; [|reflexivity]]);
    cbn [In]; split; intro H; try lia;
    repeat (destruct H as [H|H]; try discriminate H; try lia); auto.
Qed.

End RequestValidation.

(** *** Retries as the caller of [process_message] sees them *)

Section TransientFailures.

Context {rt : Runtime} {S : Type} {db : Models.Session S}.

(** X17.  Attempts that fail before one succeeds leave no mark on the
    answer.  When the calls [0 .. k - 1] of the chain fail and call
    [k <= 2] succeeds, or [k = 2] is the third call, awaiting
    [extract_expense] gives what call [k] alone gives, and
    [process_message] answers and changes the store as if the language
    model had been asked once and had given that result. *)
Theorem transient_failures_are_invisible (chain : Chain) (user_id : Z)
    (message : string) (s : S) (k : nat)
    (Hk : (k <= 2)%nat)
    (Hfailed : forall j, (j < k)%nat ->
                 exists e, extract_expense_body chain j message = Err e)
    (Hlast : k = 2%nat \/ exists v, extract_expense_body chain k message = Ok v) :
  awaited chain message = extract_expense_body chain k message
  /\ ExpenseService.process_message (awaited chain) user_id message s
     = ExpenseService.process_message (extract_expense_body chain k) user_id message s.
Proof.
  assert (Hsame : awaited chain message = extract_expense_body chain k message).
  { unfold awaited, extract_expense.
    cbn [retrying Nat.pred stop_after_attempt Nat.leb].
    destruct k as [|[|[|k]]]; [| | |lia].
    - destruct Hlast as [Hk2|[v Hv]]; [discriminate Hk2|]. rewrite Hv. reflexivity.
    - destruct (Hfailed 0%nat ltac:(lia)) as [e0 He0]. rewrite He0.
      destruct Hlast as [Hk2|[v Hv]]; [discriminate Hk2|]. rewrite Hv. reflexivity.
    - destruct (Hfailed 0%nat ltac:(lia)) as [e0 He0].
      destruct (Hfailed 1%nat ltac:(lia)) as [e1 He1]. rewrite He0, He1.
      destruct (extract_expense_body chain 2 message); reflexivity. }
  split; [exact Hsame|].
  unfold ExpenseService.process_message, try_except, bind, lift.
  rewrite Hsame. reflexivity.
Qed.

End TransientFailures.

Lemma transient_failures_are_invisible_witness :
  @awaited fixture_runtime flaky_chain "Pizza 20 reais" = Ok pizza
  /\ @ExpenseService.process_message _ (Models.MemSession Models.healthy)
       (@awaited fixture_runtime flaky_chain) 1 "Pizza 20 reais" empty_db
     = @ExpenseService.process_message _ (Models.MemSession Models.healthy)
         (fun _ => Ok pizza) 1 "Pizza 20 reais" empty_db.
Proof.
  assert (Hfailed : forall j, (j < 2)%nat ->
            exists e, @extract_expense_body fixture_runtime flaky_chain j
                        "Pizza 20 reais" = Err e).
  { intros [|[|j]] Hj; [eexists; vm_compute; reflexivity
                       | eexists; vm_compute; reflexivity | lia]. }
  destruct (@transient_failures_are_invisible fixture_runtime _
              (Models.MemSession Models.healthy) flaky_chain 1 "Pizza 20 reais"
              empty_db 2 (le_n 2) Hfailed (or_introl eq_refl)) as [Hsame Hrun].
  split.
  - rewrite Hsame. vm_compute. reflexivity.
  - rewrite Hrun. vm_compute. reflexivity.
Defined.
